(** * local-task-manager: timer accounting, recurrence, streaks, reminders

    A shallow embedding of the task store and its HTTP handlers
    (src/routes/api.js, src/utils/fileManager.js), of the streak counter
    (public/js/gamification.js) and of the appointment reminder
    (public/js/appointmentReminder.js), with the properties of the
    specification stated over them.

    Conventions of the embedding:
    - tasks.json is a [list Task]; every [readTasks] parses the file anew,
      so handlers work on a private copy until they write;
    - an instant (Date.now(), an ISO-8601 timestamp field) is its number of
      milliseconds since the epoch, a [Z]; one request reads one instant;
    - a JavaScript number that may be NaN is an [option Z];
    - a Date object holding a local midnight is its day number since
      1970-01-01, with [None] for an Invalid Date (zero UTC offset). *)

From Stdlib Require Import ZArith Lia Bool Ascii String.
From Stdlib Require Import DecimalString DecimalPos.
From stdpp Require Import base option list strings gmap.

Local Open Scope Z_scope.

(** ** The Date built-in, restricted to whole days (ECMA-262, 21.4.1) *)

Module JSDate.

Definition isLeap (y : Z) : bool :=
  (y mod 4 =? 0) && (negb (y mod 100 =? 0) || (y mod 400 =? 0)).

Definition DaysInYear (y : Z) : Z := if isLeap y then 366 else 365.

Definition DayFromYear (y : Z) : Z :=
  365 * (y - 1970) + (y - 1969) / 4 - (y - 1901) / 100 + (y - 1601) / 400.

(** The largest year whose first day is not after day [n]: an estimate from
    the mean year length, corrected by at most one year. *)
Definition YearFromDay (n : Z) : Z :=
  let y := 1970 + (400 * n) / 146097 in
  if n <? DayFromYear y then y - 1
  else if DayFromYear (y + 1) <=? n then y + 1
  else y.

Definition DayWithinYear (n : Z) : Z := n - DayFromYear (YearFromDay n).

Definition InLeapYear (n : Z) : Z := if isLeap (YearFromDay n) then 1 else 0.

Definition MonthFromDay (n : Z) : Z :=
  let d := DayWithinYear n in
  let L := InLeapYear n in
  if d <? 31 then 0
  else if d <? 59 + L then 1
  else if d <? 90 + L then 2
  else if d <? 120 + L then 3
  else if d <? 151 + L then 4
  else if d <? 181 + L then 5
  else if d <? 212 + L then 6
  else if d <? 243 + L then 7
  else if d <? 273 + L then 8
  else if d <? 304 + L then 9
  else if d <? 334 + L then 10
  else 11.

(** Days of the year before month [m] (0 = January). *)
Definition monthOffset (L m : Z) : Z :=
  match m with
  | 0 => 0 | 1 => 31 | 2 => 59 + L | 3 => 90 + L | 4 => 120 + L
  | 5 => 151 + L | 6 => 181 + L | 7 => 212 + L | 8 => 243 + L
  | 9 => 273 + L | 10 => 304 + L | _ => 334 + L
  end.

Definition DateFromDay (n : Z) : Z :=
  DayWithinYear n - monthOffset (InLeapYear n) (MonthFromDay n) + 1.

(** 0 = Sunday ... 6 = Saturday; day 0 (1970-01-01) is a Thursday. *)
Definition WeekDay (n : Z) : Z := (n + 4) mod 7.

(** MakeDay(year, month, date): month overflows into the year, the date is
    counted from the first of the month without any range check. *)
Definition MakeDay (year month date : Z) : Z :=
  let ym := year + month / 12 in
  let mn := month mod 12 in
  DayFromYear ym + monthOffset (if isLeap ym then 1 else 0) mn + date - 1.

(** TimeClip: a time value beyond 100,000,000 days from the epoch is NaN. *)
Definition TimeClip (n : Z) : option Z :=
  if Z.abs n <=? 100000000 then Some n else None.

Definition Date : Type := option Z.

(** new Date(year, monthIndex, day): a year from 0 to 99 means 1900 + year. *)
Definition newDate (year monthIndex day : option Z) : Date :=
  match year, monthIndex, day with
  | Some y, Some m, Some d =>
      let yr := if (0 <=? y) && (y <=? 99) then 1900 + y else y in
      TimeClip (MakeDay yr m d)
  | _, _, _ => None
  end.

Definition getFullYear (date : Date) : option Z := YearFromDay <$> date.
Definition getMonth (date : Date) : option Z := MonthFromDay <$> date.
Definition getDate (date : Date) : option Z := DateFromDay <$> date.
Definition getDay (date : Date) : option Z := WeekDay <$> date.

Definition setDate (date : Date) (dt : option Z) : Date :=
  match date, dt with
  | Some n, Some k => TimeClip (MakeDay (YearFromDay n) (MonthFromDay n) k)
  | _, _ => None
  end.

(** Calendar vocabulary for the statements: months are 1..12 here. *)
Definition DaysInMonth (y m : Z) : Z :=
  match m with
  | 2 => if isLeap y then 29 else 28
  | 4 | 6 | 9 | 11 => 30
  | _ => 31
  end.

Definition valid_date (y m d : Z) : Prop :=
  1 <= m <= 12 /\ 1 <= d <= DaysInMonth y m.

Definition civil (n : Z) : Z * Z * Z :=
  (YearFromDay n, MonthFromDay n + 1, DateFromDay n).

(** The calendar day after [y]-[m]-[d], by the calendar's own rules. *)
Definition next_day (ymd : Z * Z * Z) : Z * Z * Z :=
  let '(y, m, d) := ymd in
  if d <? DaysInMonth y m then (y, m, d + 1)
  else if m <? 12 then (y, m + 1, 1)
  else (y + 1, 1, 1).

End JSDate.

(** ** Strings and numbers as the handlers use them *)

(** Truthiness of a nullable string: null and the empty string are falsy. *)
Definition truthy (v : option string) : bool :=
  match v with
  | Some s => negb (String.eqb s "")
  | None => false
  end.

(** String.prototype.split with a one-character separator. *)
Fixpoint split (sep : ascii) (s : string) : list string :=
  match s with
  | EmptyString => [EmptyString]
  | String c rest =>
      if Ascii.eqb c sep then EmptyString :: split sep rest
      else match split sep rest with
           | w :: ws => String c w :: ws
           | [] => [String c EmptyString]
           end
  end.

Definition digit (c : ascii) : option Z :=
  let n := Z.of_N (N_of_ascii c) in
  if (48 <=? n) && (n <=? 57) then Some (n - 48) else None.

Fixpoint digits (s : string) (acc : Z) : option Z :=
  match s with
  | EmptyString => Some acc
  | String c rest =>
      match digit c with
      | Some v => digits rest (10 * acc + v)
      | None => None
      end
  end.

(** Number(s) on the strings a YYYY-MM-DD date is made of: a run of decimal
    digits is its value, the empty string is 0. Other numeric literals of
    JavaScript (signs, fractions, exponents, blanks) are outside this model
    and read as NaN; the statements below only speak of digit fields. *)
Definition Number (s : string) : option Z := digits s 0.

(** String(n) for a number that may be NaN. *)
Definition String_ (n : option Z) : string :=
  match n with
  | Some z => NilZero.string_of_int (Z.to_int z)
  | None => "NaN"
  end.

(** s.padStart(2, '0') *)
Definition padStart2 (s : string) : string :=
  match s with
  | EmptyString => "00"
  | String c EmptyString => String "0" s
  | _ => s
  end.

(** `${year}-${month}-${day}` with the month and the day padded. *)
Definition formatYMD (year month day : option Z) : string :=
  String_ year +:+ "-" +:+ padStart2 (String_ month) +:+ "-"
    +:+ padStart2 (String_ day).

Definition formatDay (n : Z) : string :=
  formatYMD (Some (JSDate.YearFromDay n)) (Some (JSDate.MonthFromDay n + 1))
            (Some (JSDate.DateFromDay n)).

(** ** src/routes/api.js: calculateNextDueDate *)

Import JSDate.

(** The current version, with the working-days flag. *)
Definition calculateNextDueDate (currentDate recurring : option string)
    (workingDaysOnly : bool) : option string :=
  if negb (truthy currentDate) || negb (truthy recurring) then currentDate
  else
    let parts := Number <$> split "-" (default "" currentDate) in
    let year := mjoin (parts !! 0%nat) in
    let month := mjoin (parts !! 1%nat) in
    let day := mjoin (parts !! 2%nat) in
    let date := newDate year ((fun m => m - 1) <$> month) day in
    let date :=
      if bool_decide (recurring = Some "daily") then
        let date := setDate date ((fun k => k + 1) <$> getDate date) in
        if workingDaysOnly then
          let dayOfWeek := getDay date in
          if bool_decide (dayOfWeek = Some 0) then
            setDate date ((fun k => k + 1) <$> getDate date)
          else if bool_decide (dayOfWeek = Some 6) then
            setDate date ((fun k => k + 2) <$> getDate date)
          else date
        else date
      else if bool_decide (recurring = Some "weekly") then
        setDate date ((fun k => k + 7) <$> getDate date)
      else date in
    let newYear := getFullYear date in
    let newMonth := padStart2 (String_ ((fun m => m + 1) <$> getMonth date)) in
    let newDay := padStart2 (String_ (getDate date)) in
    Some (String_ newYear +:+ "-" +:+ newMonth +:+ "-" +:+ newDay).

(** The first version of the file, before the working-days flag. *)
Definition calculateNextDueDate_v1 (currentDate recurring : option string)
    : option string :=
  if negb (truthy currentDate) || negb (truthy recurring) then currentDate
  else
    let parts := Number <$> split "-" (default "" currentDate) in
    let year := mjoin (parts !! 0%nat) in
    let month := mjoin (parts !! 1%nat) in
    let day := mjoin (parts !! 2%nat) in
    let date := newDate year ((fun m => m - 1) <$> month) day in
    let date :=
      if bool_decide (recurring = Some "daily") then
        setDate date ((fun k => k + 1) <$> getDate date)
      else if bool_decide (recurring = Some "weekly") then
        setDate date ((fun k => k + 7) <$> getDate date)
      else date in
    let newYear := getFullYear date in
    let newMonth := padStart2 (String_ ((fun m => m + 1) <$> getMonth date)) in
    let newDay := padStart2 (String_ (getDate date)) in
    Some (String_ newYear +:+ "-" +:+ newMonth +:+ "-" +:+ newDay).

(** Vocabulary for the statements about due dates: a calendar date as the
    function prints it, the string of an Invalid Date, and the days the
    working-days rule adds when day [n] is a Saturday (6) or a Sunday (0). *)
Definition formatCivil (ymd : Z * Z * Z) : string :=
  let '(y, m, d) := ymd in formatYMD (Some y) (Some m) (Some d).

Definition invalidDate : string := "NaN-NaN-NaN".


(** A due date of the form YYYY-MM-DD: three digit fields. *)
Definition readsAs (s : string) (y m d : Z) : Prop :=
  Number <$> split "-" s = [Some y; Some m; Some d].



(** The function returns the calendar date [ymd], in its own format. *)
Definition returnsDate (result : option string) (ymd : Z * Z * Z) : Prop :=
  result = Some (formatCivil ymd)
  /\ let '(y, m, d) := ymd in
     readsAs (formatCivil ymd) y m d /\ valid_date y m d.

(** A string that split does not cut, for the proofs. *)
Definition dashFree (s : string) : Prop :=
  split "-" s = [s]
  /\ forall rest, split "-" (s +:+ String "-" rest) = s :: split "-" rest.

(** ** The task store: src/utils/fileManager.js *)

(** A task as tasks.json holds it. The timestamps [startedAt],
    [completedAt], [createdAt] and [updatedAt] are ISO-8601 strings in the
    file; here each is the instant it denotes, in milliseconds. *)
Record Task : Type := mkTask {
  id : string;
  description : string;
  dueDate : option string;
  dueTime : option string;
  priority : string;
  recurring : option string;
  details : option string;
  links : list string;
  isAppointment : bool;
  reminderMinutes : option Z;
  workingDaysOnly : bool;
  completed : bool;
  archived : bool;
  inProgress : bool;
  startedAt : option Z;
  timeSpent : Z;
  completedAt : option Z;
  createdAt : Z;
  updatedAt : Z
}.

(** Assignments to one field of a task object, [task.f = v]. *)
Definition set_inProgress (v : bool) (task : Task) : Task :=
  {| id := id task; description := description task; dueDate := dueDate task;
     dueTime := dueTime task; priority := priority task;
     recurring := recurring task; details := details task;
     links := links task; isAppointment := isAppointment task;
     reminderMinutes := reminderMinutes task;
     workingDaysOnly := workingDaysOnly task; completed := completed task;
     archived := archived task; inProgress := v; startedAt := startedAt task;
     timeSpent := timeSpent task; completedAt := completedAt task;
     createdAt := createdAt task; updatedAt := updatedAt task |}.

Definition set_startedAt (v : option Z) (task : Task) : Task :=
  {| id := id task; description := description task; dueDate := dueDate task;
     dueTime := dueTime task; priority := priority task;
     recurring := recurring task; details := details task;
     links := links task; isAppointment := isAppointment task;
     reminderMinutes := reminderMinutes task;
     workingDaysOnly := workingDaysOnly task; completed := completed task;
     archived := archived task; inProgress := inProgress task;
     startedAt := v; timeSpent := timeSpent task;
     completedAt := completedAt task; createdAt := createdAt task;
     updatedAt := updatedAt task |}.

Definition set_timeSpent (v : Z) (task : Task) : Task :=
  {| id := id task; description := description task; dueDate := dueDate task;
     dueTime := dueTime task; priority := priority task;
     recurring := recurring task; details := details task;
     links := links task; isAppointment := isAppointment task;
     reminderMinutes := reminderMinutes task;
     workingDaysOnly := workingDaysOnly task; completed := completed task;
     archived := archived task; inProgress := inProgress task;
     startedAt := startedAt task; timeSpent := v;
     completedAt := completedAt task; createdAt := createdAt task;
     updatedAt := updatedAt task |}.

Definition set_completed (v : bool) (task : Task) : Task :=
  {| id := id task; description := description task; dueDate := dueDate task;
     dueTime := dueTime task; priority := priority task;
     recurring := recurring task; details := details task;
     links := links task; isAppointment := isAppointment task;
     reminderMinutes := reminderMinutes task;
     workingDaysOnly := workingDaysOnly task; completed := v;
     archived := archived task; inProgress := inProgress task;
     startedAt := startedAt task; timeSpent := timeSpent task;
     completedAt := completedAt task; createdAt := createdAt task;
     updatedAt := updatedAt task |}.

Definition set_archived (v : bool) (task : Task) : Task :=
  {| id := id task; description := description task; dueDate := dueDate task;
     dueTime := dueTime task; priority := priority task;
     recurring := recurring task; details := details task;
     links := links task; isAppointment := isAppointment task;
     reminderMinutes := reminderMinutes task;
     workingDaysOnly := workingDaysOnly task; completed := completed task;
     archived := v; inProgress := inProgress task;
     startedAt := startedAt task; timeSpent := timeSpent task;
     completedAt := completedAt task; createdAt := createdAt task;
     updatedAt := updatedAt task |}.

Definition set_completedAt (v : option Z) (task : Task) : Task :=
  {| id := id task; description := description task; dueDate := dueDate task;
     dueTime := dueTime task; priority := priority task;
     recurring := recurring task; details := details task;
     links := links task; isAppointment := isAppointment task;
     reminderMinutes := reminderMinutes task;
     workingDaysOnly := workingDaysOnly task; completed := completed task;
     archived := archived task; inProgress := inProgress task;
     startedAt := startedAt task; timeSpent := timeSpent task;
     completedAt := v; createdAt := createdAt task;
     updatedAt := updatedAt task |}.

Definition set_updatedAt (v : Z) (task : Task) : Task :=
  {| id := id task; description := description task; dueDate := dueDate task;
     dueTime := dueTime task; priority := priority task;
     recurring := recurring task; details := details task;
     links := links task; isAppointment := isAppointment task;
     reminderMinutes := reminderMinutes task;
     workingDaysOnly := workingDaysOnly task; completed := completed task;
     archived := archived task; inProgress := inProgress task;
     startedAt := startedAt task; timeSpent := timeSpent task;
     completedAt := completedAt task; createdAt := createdAt task;
     updatedAt := v |}.

(** tasks.json after JSON.parse: the "tasks" array. *)
Definition readTasks (file : list Task) : list Task := file.

Definition writeTasks (tasks : list Task) : list Task := tasks.

(** tasks.find / tasks.findIndex on the id: the first match and its index. *)
Definition findById (taskId : string) (tasks : list Task)
    : option (nat * Task) :=
  list_find (fun task => id task = taskId) tasks.

Definition getTask (taskId : string) (file : list Task) : option Task :=
  snd <$> findById taskId (readTasks file).

Definition saveTask (task : Task) (file : list Task) : list Task :=
  let tasks := readTasks file in
  match fst <$> findById (id task) tasks with
  | Some existingIndex => writeTasks (<[existingIndex := task]> tasks)
  | None => writeTasks (tasks ++ [task])
  end.

Definition deleteTask (taskId : string) (file : list Task) : list Task :=
  let tasks := readTasks file in
  writeTasks (filter (fun task => id task <> taskId) tasks).

(** ** The handlers of src/routes/api.js *)

(** The JSON body of POST /api/tasks. *)
Record TaskBody : Type := mkBody {
  b_id : option string;
  b_description : option string;
  b_dueDate : option string;
  b_dueTime : option string;
  b_priority : option string;
  b_links : option (list string);
  b_recurring : option string;
  b_details : option string;
  b_isAppointment : bool;
  b_reminderMinutes : option Z;
  b_workingDaysOnly : bool
}.

Inductive Response : Type :=
  | Json (task : Task)           (* 200, the task *)
  | Success                      (* 200, { success: true } *)
  | BadRequest (error : string)  (* 400 *)
  | NotFound.                    (* 404, 'Task not found' *)

(** [v || null] on a nullable string. *)
Definition orNull (v : option string) : option string :=
  if truthy v then v else None.

(** [n || d] on a nullable number: 0 is falsy too. *)
Definition orNum (n : option Z) (d : Z) : Z :=
  match n with
  | Some z => if z =? 0 then d else z
  | None => d
  end.

Section Handlers.

(** String.prototype.trim and "new URL(link) does not throw". *)
Variable trim : string -> string.
Variable validURL : string -> bool.

(** validateTask(task): the message of the error it throws, if any. The
    test on details never fails here, where details is a string or null. *)
Definition validateTask (task : Task) : option string :=
  if String.eqb (description task) ""
     || String.eqb (trim (description task)) ""
  then Some "Description is required"
  else if negb (String.eqb (priority task) "")
          && negb (bool_decide (priority task ∈ ["low"; "medium"; "high"]))
  then Some "Invalid priority value"
  else match filter (fun link => validURL link = false) (links task) with
       | link :: _ => Some ("Invalid URL: " +:+ link)
       | [] => None
       end.

(** POST /api/tasks: create or update a task. (In the source the message
    of the second refusal has daily and weekly in double quotes.) *)
Definition post_tasks (body : TaskBody) (now : Z) (file : list Task)
    : Response * list Task :=
  if negb (truthy (b_description body))
     || String.eqb (trim (default "" (b_description body))) ""
  then (BadRequest "Description is required", file)
  else if truthy (b_recurring body)
          && negb (bool_decide (default "" (b_recurring body)
                                  ∈ ["daily"; "weekly"]))
  then (BadRequest "Recurring must be 'daily' or 'weekly'", file)
  else
    let description' := trim (default "" (b_description body)) in
    let dueDate' := orNull (b_dueDate body) in
    let dueTime' := orNull (b_dueTime body) in
    let priority' :=
      if truthy (b_priority body) then default "" (b_priority body)
      else "medium" in
    let recurring' := orNull (b_recurring body) in
    let details' := orNull (b_details body) in
    let links' := default [] (b_links body) in
    let isAppointment' := b_isAppointment body in
    let reminderMinutes' :=
      if b_isAppointment body then Some (orNum (b_reminderMinutes body) 30)
      else None in
    let workingDaysOnly' :=
      if bool_decide (b_recurring body = Some "daily")
      then b_workingDaysOnly body else false in
    let fresh (newId : string) : Task :=
      {| id := newId; description := description'; dueDate := dueDate';
         dueTime := dueTime'; priority := priority'; recurring := recurring';
         details := details'; links := links';
         isAppointment := isAppointment';
         reminderMinutes := reminderMinutes';
         workingDaysOnly := workingDaysOnly';
         completed := false; archived := false; inProgress := false;
         startedAt := None; timeSpent := 0; completedAt := None;
         createdAt := now; updatedAt := now |} in
    let task :=
      if truthy (b_id body) then
        match getTask (default "" (b_id body)) file with
        | Some existingTask =>
            {| id := id existingTask; description := description';
               dueDate := dueDate'; dueTime := dueTime';
               priority := priority'; recurring := recurring';
               details := details'; links := links';
               isAppointment := isAppointment';
               reminderMinutes := reminderMinutes';
               workingDaysOnly := workingDaysOnly';
               completed := completed existingTask;
               archived := archived existingTask;
               inProgress := inProgress existingTask;
               startedAt := startedAt existingTask;
               timeSpent := timeSpent existingTask;
               completedAt := completedAt existingTask;
               createdAt := createdAt existingTask; updatedAt := now |}
        | None => fresh (default "" (b_id body))
        end
      else fresh (String_ (Some now)) in
    match validateTask task with
    | Some error => (BadRequest error, file)
    | None => (Json task, saveTask task file)
    end.

(** POST /api/tasks in the first version of the file: the same handler
    without the details, appointment and working-days fields. An update
    spreads the existing task, so whatever it holds there is kept; a new
    task has none of them. *)
Definition post_tasks_v1 (body : TaskBody) (now : Z) (file : list Task)
    : Response * list Task :=
  if negb (truthy (b_description body))
     || String.eqb (trim (default "" (b_description body))) ""
  then (BadRequest "Description is required", file)
  else if truthy (b_recurring body)
          && negb (bool_decide (default "" (b_recurring body)
                                  ∈ ["daily"; "weekly"]))
  then (BadRequest "Recurring must be 'daily' or 'weekly'", file)
  else
    let description' := trim (default "" (b_description body)) in
    let dueDate' := orNull (b_dueDate body) in
    let dueTime' := orNull (b_dueTime body) in
    let priority' :=
      if truthy (b_priority body) then default "" (b_priority body)
      else "medium" in
    let recurring' := orNull (b_recurring body) in
    let links' := default [] (b_links body) in
    let fresh (newId : string) : Task :=
      {| id := newId; description := description'; dueDate := dueDate';
         dueTime := dueTime'; priority := priority'; recurring := recurring';
         details := None; links := links'; isAppointment := false;
         reminderMinutes := None; workingDaysOnly := false;
         completed := false; archived := false; inProgress := false;
         startedAt := None; timeSpent := 0; completedAt := None;
         createdAt := now; updatedAt := now |} in
    let task :=
      if truthy (b_id body) then
        match getTask (default "" (b_id body)) file with
        | Some existingTask =>
            {| id := id existingTask; description := description';
               dueDate := dueDate'; dueTime := dueTime';
               priority := priority'; recurring := recurring';
               details := details existingTask; links := links';
               isAppointment := isAppointment existingTask;
               reminderMinutes := reminderMinutes existingTask;
               workingDaysOnly := workingDaysOnly existingTask;
               completed := completed existingTask;
               archived := archived existingTask;
               inProgress := inProgress existingTask;
               startedAt := startedAt existingTask;
               timeSpent := timeSpent existingTask;
               completedAt := completedAt existingTask;
               createdAt := createdAt existingTask; updatedAt := now |}
        | None => fresh (default "" (b_id body))
        end
      else fresh (String_ (Some now)) in
    match validateTask task with
    | Some error => (BadRequest error, file)
    | None => (Json task, saveTask task file)
    end.

End Handlers.

(** POST /api/tasks/:id/start. The loop that stops the other running tasks
    works on the handler's own copy [tasks]; what reaches the file is
    [saveTask task], which reads the file again and replaces one entry. *)
Definition post_tasks_start (taskId : string) (now : Z) (file : list Task)
    : Response * list Task :=
  let tasks := readTasks file in
  let tasks :=
    (fun task =>
       if inProgress task && negb (String.eqb (id task) taskId)
       then set_startedAt None (set_inProgress false task)
       else task) <$> tasks in
  match snd <$> findById taskId tasks with
  | None => (NotFound, file)
  | Some task =>
      let task := set_inProgress true task in
      let task := set_startedAt (Some now) task in
      let task := set_updatedAt now task in
      (Json task, saveTask task file)
  end.

(** POST /api/tasks/:id/stop *)
Definition post_tasks_stop (taskId : string) (now : Z) (file : list Task)
    : Response * list Task :=
  match getTask taskId file with
  | None => (NotFound, file)
  | Some task =>
      let task :=
        match inProgress task, startedAt task with
        | true, Some started =>
            let elapsed := (now - started) / 1000 in
            set_timeSpent (timeSpent task + elapsed) task
        | _, _ => task
        end in
      let task := set_inProgress false task in
      let task := set_startedAt None task in
      let task := set_updatedAt now task in
      (Json task, saveTask task file)
  end.

(** POST /api/tasks/:id/complete. [rnd] is Math.floor(Math.random() * 1000),
    the tail of the successor's id. *)
Definition post_tasks_complete (taskId : string) (now rnd : Z)
    (file : list Task) : Response * list Task :=
  let allTasks := readTasks file in
  match findById taskId allTasks with
  | None => (NotFound, file)
  | Some (taskIndex, task) =>
      let task :=
        match inProgress task, startedAt task with
        | true, Some started =>
            let elapsed := (now - started) / 1000 in
            set_timeSpent (timeSpent task + elapsed) task
        | _, _ => task
        end in
      let task := set_completed true task in
      let task := set_archived true task in
      let task := set_inProgress false task in
      let task := set_startedAt None task in
      let task := set_completedAt (Some now) task in
      let task := set_updatedAt now task in
      let allTasks := <[taskIndex := task]> allTasks in
      let allTasks :=
        if truthy (recurring task) && truthy (dueDate task) then
          let nextDueDate :=
            calculateNextDueDate (dueDate task) (recurring task)
                                 (workingDaysOnly task) in
          let newTask :=
            {| id := String_ (Some now) +:+ String_ (Some rnd);
               description := description task;
               dueDate := nextDueDate;
               dueTime := orNull (dueTime task);
               priority := priority task;
               recurring := recurring task;
               details := orNull (details task);
               links := links task;
               isAppointment := isAppointment task;
               reminderMinutes :=
                 match reminderMinutes task with
                 | Some m => if m =? 0 then None else Some m
                 | None => None
                 end;
               workingDaysOnly := workingDaysOnly task;
               completed := false; archived := false; inProgress := false;
               startedAt := None; timeSpent := 0; completedAt := None;
               createdAt := now; updatedAt := now |} in
          allTasks ++ [newTask]
        else allTasks in
      (Json task, writeTasks allTasks)
  end.

(** POST /api/tasks/:id/restore *)
Definition post_tasks_restore (taskId : string) (now : Z) (file : list Task)
    : Response * list Task :=
  match getTask taskId file with
  | None => (NotFound, file)
  | Some task =>
      let task := set_archived false task in
      let task := set_completed false task in
      let task := set_updatedAt now task in
      (Json task, saveTask task file)
  end.

(** DELETE /api/tasks/:id *)
Definition delete_tasks (taskId : string) (file : list Task)
    : Response * list Task :=
  match getTask taskId file with
  | None => (NotFound, file)
  | Some _ => (Success, deleteTask taskId file)
  end.

(** The server as a whole: one request at a time, each with its clock. *)
Inductive Request : Type :=
  | PostTask (body : TaskBody)
  | StartTask (taskId : string)
  | StopTask (taskId : string)
  | CompleteTask (taskId : string) (rnd : Z)
  | RestoreTask (taskId : string)
  | DeleteTask (taskId : string).

Definition handle (trim : string -> string) (validURL : string -> bool)
    (req : Request) (now : Z) (file : list Task) : Response * list Task :=
  match req with
  | PostTask body => post_tasks trim validURL body now file
  | StartTask taskId => post_tasks_start taskId now file
  | StopTask taskId => post_tasks_stop taskId now file
  | CompleteTask taskId rnd => post_tasks_complete taskId now rnd file
  | RestoreTask taskId => post_tasks_restore taskId now file
  | DeleteTask taskId => delete_tasks taskId file
  end.

(** tasks.json after a sequence of requests. *)
Definition serve (trim : string -> string) (validURL : string -> bool)
    (requests : list (Request * Z)) (file : list Task) : list Task :=
  foldl (fun file '(req, now) => snd (handle trim validURL req now file))
        file requests.

(** The tasks of the file whose timer is running. *)
Definition running (file : list Task) : list Task :=
  filter (fun task => inProgress task = true) file.

(** What stop and complete are to add to [timeSpent]: the whole seconds
    between [startedAt] and now for a running task, nothing otherwise. *)
Definition elapsedSeconds (now : Z) (task : Task) : Z :=
  match inProgress task, startedAt task with
  | true, Some started => (now - started) / 1000
  | _, _ => 0
  end.

(** ** public/js/gamification.js: the streak counter *)

(** A calendar day, the value of [new Date().toDateString()], is its day
    number. *)
Record StreakData : Type := mkStreak {
  currentStreak : Z;
  lastCompletedDate : option Z;
  tasksCompletedToday : Z
}.

(** The Gamification object with the 'taskStreakData' item of
    localStorage. *)
Record Gamification : Type := mkGamification {
  streak : StreakData;
  stored : option StreakData
}.

Definition resetStreak : StreakData :=
  {| currentStreak := 0; lastCompletedDate := None;
     tasksCompletedToday := 0 |}.

Definition loadStreakData (today : Z) (item : option StreakData)
    : StreakData :=
  match item with
  | Some data =>
      if bool_decide (lastCompletedDate data = Some today) then
        {| currentStreak := currentStreak data;
           lastCompletedDate := lastCompletedDate data;
           tasksCompletedToday := tasksCompletedToday data |}
      else
        match lastCompletedDate data with
        | Some lastDate =>
            let daysDiff := today - lastDate in
            if daysDiff =? 1 then
              {| currentStreak := currentStreak data + 1;
                 lastCompletedDate := Some today;
                 tasksCompletedToday := 0 |}
            else
              {| currentStreak := 0; lastCompletedDate := Some today;
                 tasksCompletedToday := 0 |}
        | None => resetStreak
        end
  | None => resetStreak
  end.

(** new Gamification(), on a page load *)
Definition newGamification (today : Z) (item : option StreakData)
    : Gamification :=
  {| streak := loadStreakData today item; stored := item |}.

Definition saveStreakData (g : Gamification) : Gamification :=
  {| streak := streak g; stored := Some (streak g) |}.

Definition recordTaskCompletion (today : Z) (g : Gamification)
    : bool * Gamification :=
  let this := streak g in
  if bool_decide (lastCompletedDate this = Some today) then
    let this :=
      {| currentStreak := currentStreak this;
         lastCompletedDate := lastCompletedDate this;
         tasksCompletedToday := tasksCompletedToday this + 1 |} in
    let g := saveStreakData {| streak := this; stored := stored g |} in
    let g :=
      if (tasksCompletedToday this =? 3) && (currentStreak this =? 0) then
        saveStreakData
          {| streak :=
               {| currentStreak := 1;
                  lastCompletedDate := lastCompletedDate this;
                  tasksCompletedToday := tasksCompletedToday this |};
             stored := stored g |}
      else g in
    (tasksCompletedToday this =? 3, g)
  else
    let previousDayMet := 3 <=? tasksCompletedToday this in
    let currentStreak' :=
      if previousDayMet && (0 <? currentStreak this) then
        currentStreak this + 1
      else if previousDayMet && (currentStreak this =? 0) then 1
      else if negb previousDayMet then 0
      else currentStreak this in
    let this :=
      {| currentStreak := currentStreak';
         lastCompletedDate := Some today;
         tasksCompletedToday := 1 |} in
    (false, saveStreakData {| streak := this; stored := stored g |}).

(** What the browser does to the counter: the page is loaded, or a task is
    completed, on some calendar day. *)
Inductive StreakEvent : Type :=
  | PageLoad (today : Z)
  | TaskCompleted (today : Z).

Definition streakStep (g : Gamification) (ev : StreakEvent) : Gamification :=
  match ev with
  | PageLoad today => newGamification today (stored g)
  | TaskCompleted today => snd (recordTaskCompletion today g)
  end.

(** The states the counter can be in, from a first page load with nothing
    stored. *)
Inductive reachable : Gamification -> Prop :=
  | reachable_first today : reachable (newGamification today None)
  | reachable_step g ev : reachable g -> reachable (streakStep g ev).

(** [n] completions in a row on the day [today]. *)
Definition completions (today : Z) (n : nat) (g : Gamification)
    : Gamification :=
  Nat.iter n (fun g => snd (recordTaskCompletion today g)) g.

(** The tasks counted for [today]: the counter, once the state is on that
    day. *)
Definition countFor (today : Z) (g : Gamification) : Z :=
  if bool_decide (lastCompletedDate (streak g) = Some today)
  then tasksCompletedToday (streak g) else 0.

(** Invariants of the counter, for the proofs. In every state, in memory
    and in localStorage, the streak is not negative and a day count of
    three or more comes with a streak of at least one. *)
Definition streakBacked (data : StreakData) : Prop :=
  0 <= currentStreak data
  /\ (3 <= tasksCompletedToday data -> 1 <= currentStreak data).

(** The streak of a day that began at 0: it is 1 from the third task on. *)
Definition dayStreak (today : Z) (g : Gamification) : Prop :=
  currentStreak (streak g) = (if countFor today g <? 3 then 0 else 1)
  /\ (lastCompletedDate (streak g) <> Some today ->
      tasksCompletedToday (streak g) < 3).

(** ** public/js/appointmentReminder.js *)

(** The AppointmentReminder object with the 'appointmentReminders' item of
    localStorage, a date and the ids reminded on it. *)
Record AppointmentReminder : Type := mkReminder {
  remindedTaskIds : gset string;
  appointmentReminders : option (Z * gset string)
}.

Section Reminder.

(** [new Date(`${dueDate}T${dueTime}`).getTime()], NaN being [None]; and
    the calendar day, [toDateString()], of an instant. *)
Variable dueDateTimeMs : string -> string -> option Z.
Variable dayOf : Z -> Z.

Definition saveRemindedTasks (now : Z) (this : AppointmentReminder)
    : AppointmentReminder :=
  {| remindedTaskIds := remindedTaskIds this;
     appointmentReminders := Some (dayOf now, remindedTaskIds this) |}.











End Reminder.


(** resetTaskReminder(taskId) and clearAllReminders(): the id, or every
    id, leaves the set, and the set is stored under the current day. *)
Definition resetTaskReminder (dayOf : Z -> Z) (taskId : string) (now : Z)
    (this : AppointmentReminder) : AppointmentReminder :=
  let this :=
    {| remindedTaskIds := remindedTaskIds this ∖ {[ taskId ]};
       appointmentReminders := appointmentReminders this |} in
  saveRemindedTasks dayOf now this.

Definition clearAllReminders (dayOf : Z -> Z) (now : Z)
    (this : AppointmentReminder) : AppointmentReminder :=
  let this :=
    {| remindedTaskIds := ∅;
       appointmentReminders := appointmentReminders this |} in
  saveRemindedTasks dayOf now this.

(** ** The listings of src/routes/api.js *)

(** GET /api/tasks: the tasks that are not archived. *)
Definition get_tasks (file : list Task) : list Task :=
  let tasks := readTasks file in
  filter (fun task => archived task = false) tasks.

(** GET /api/tasks/archived in the first version of the file. *)
Definition get_tasks_archived_v1 (file : list Task) : list Task :=
  let tasks := readTasks file in
  filter (fun task => archived task = true) tasks.

(** ** Archive files: src/utils/fileManager.js *)

(** A task object with the [archivedToFile] mark that the archive cleanup
    puts on the tasks it moves; a task of tasks.json has no such mark, which
    reads as false. *)
Record FiledTask : Type := mkFiled {
  filedTask : Task;
  archivedToFile : bool
}.

(** A file of DATA_DIR that holds a "tasks" array, with the time of its
    last write. The directory is a map from file names to such files, a
    [gmap string ArchiveFile]; tasks.json is kept apart, as above. Files
    that do not parse are outside the model. *)
Record ArchiveFile : Type := mkArchiveFile {
  mtimeMs : Z;
  archiveTasksOf : list FiledTask
}.

(** dateStr.replace(/-/g, '') *)
Fixpoint removeDashes (s : string) : string :=
  match s with
  | EmptyString => EmptyString
  | String c rest =>
      if Ascii.eqb c "-" then removeDashes rest
      else String c (removeDashes rest)
  end.

(** getArchiveFilePath(dateStr): the name of the file within DATA_DIR. *)
Definition getArchiveFilePath (dateStr : string) : string :=
  "archive_" +:+ removeDashes dateStr +:+ ".json".

Definition startsWith (s searchString : string) : bool :=
  String.prefix searchString s.

(** s.endsWith(searchString): some tail of [s] is the search string. *)
Fixpoint endsWith (s searchString : string) : bool :=
  String.eqb s searchString
  || match s with
     | EmptyString => false
     | String _ rest => endsWith rest searchString
     end.

(** readArchivedTasks(): the tasks of every archive file, in the order in
    which the directory lists the files. *)
Definition readArchivedTasks (dir : gmap string ArchiveFile)
    : list FiledTask :=
  foldl (fun archivedTasks '(file, data) =>
           if startsWith file "archive_" && endsWith file ".json"
           then archivedTasks ++ archiveTasksOf data
           else archivedTasks)
        [] (map_to_list dir).

(** archiveTasks(dateStr, tasksToArchive), run at the instant [now]. *)
Definition archiveTasks (now : Z) (dateStr : string)
    (tasksToArchive : list FiledTask) (dir : gmap string ArchiveFile)
    : gmap string ArchiveFile :=
  let filePath := getArchiveFilePath dateStr in
  let archiveData :=
    match dir !! filePath with
    | Some data => archiveTasksOf data
    | None => []
    end in
  <[filePath := {| mtimeMs := now;
                   archiveTasksOf := archiveData ++ tasksToArchive |}]> dir.

(** cleanupOldArchives(daysOld), run at the instant [now]; the server calls
    it with the default of 45 days when it starts. *)
Definition cleanupOldArchives (daysOld now : Z)
    (dir : gmap string ArchiveFile) : gmap string ArchiveFile :=
  let cutoffTime := now - daysOld * 24 * 60 * 60 * 1000 in
  foldl (fun dir '(file, data) =>
           if startsWith file "archive_" && endsWith file ".json" then
             if mtimeMs data <? cutoffTime then delete file dir else dir
           else dir)
        dir (map_to_list dir).

(** GET /api/tasks/archived: the archived tasks of tasks.json, then those
    of the archive files. *)
Definition get_tasks_archived (file : list Task)
    (dir : gmap string ArchiveFile) : list FiledTask :=
  let tasks := readTasks file in
  let tasksJsonArchived := filter (fun task => archived task = true) tasks in
  let archivedFileTasks := readArchivedTasks dir in
  ((fun task => mkFiled task false) <$> tasksJsonArchived)
    ++ archivedFileTasks.

(** ** POST /api/archive/cleanup *)

(** s.padStart(n, '0') *)
Fixpoint zeros (n : nat) : string :=
  match n with
  | O => EmptyString
  | S k => String "0" (zeros k)
  end.

Definition padStartZero (n : nat) (s : string) : string :=
  zeros (n - String.length s) +:+ s.

(** new Date(t).toISOString().split('T')[0]: the calendar date of the
    instant [t] in UTC, the year on four places from 0 to 9999 and on six
    places with its sign otherwise. *)
Definition isoDate (t : Z) : string :=
  let n := t / 86400000 in
  let y := YearFromDay n in
  let year :=
    if (0 <=? y) && (y <=? 9999) then padStartZero 4 (String_ (Some y))
    else (if y <? 0 then "-" else "+")
           +:+ padStartZero 6 (String_ (Some (Z.abs y))) in
  year +:+ "-" +:+ padStart2 (String_ (Some (MonthFromDay n + 1))) +:+ "-"
    +:+ padStart2 (String_ (Some (DateFromDay n))).

(** The test of the filter that picks the tasks to move: archived, with a
    completion time, completed before the cutoff. A cutoff that is NaN
    compares false with everything. *)
Definition completedBefore (cutoffTime : option Z) (task : Task) : bool :=
  if negb (archived task) || negb (bool_decide (is_Some (completedAt task)))
  then false
  else
    match completedAt task, cutoffTime with
    | Some completedTime, Some cutoff => completedTime <? cutoff
    | _, _ => false
    end.

(** tasksByDate[completedDate].push(task), on an object whose keys keep
    the order in which they were first set. *)
Fixpoint pushByDate (completedDate : string) (task : FiledTask)
    (tasksByDate : list (string * list FiledTask))
    : list (string * list FiledTask) :=
  match tasksByDate with
  | [] => [(completedDate, [task])]
  | (dateStr, tasksForDate) :: rest =>
      if String.eqb dateStr completedDate
      then (dateStr, tasksForDate ++ [task]) :: rest
      else (dateStr, tasksForDate) :: pushByDate completedDate task rest
  end.

Inductive CleanupResponse : Type :=
  | CutoffRequired          (* 400, 'Cutoff date is required' *)
  | Moved (moved : nat).    (* 200, { success: true, moved } *)

Section Cleanup.

(** [new Date(cutoffDate).getTime()], NaN being [None]. *)
Variable parseDate : string -> option Z.

(** The handler works on its own copy of the list: the marks it sets are
    on the tasks it moves, and [tasksToMove.includes] tells those objects
    from the others, which are the ones that fail the test. *)
Definition post_archive_cleanup (cutoffDate : option string) (now : Z)
    (file : list Task) (dir : gmap string ArchiveFile)
    : CleanupResponse * (list Task * gmap string ArchiveFile) :=
  if negb (truthy cutoffDate) then (CutoffRequired, (file, dir))
  else
    let tasks := readTasks file in
    let cutoffTime := parseDate (default "" cutoffDate) in
    let tasksToMove :=
      filter (fun task => completedBefore cutoffTime task = true) tasks in
    if (length tasksToMove =? 0)%nat then (Moved 0, (file, dir))
    else
      let tasksByDate :=
        foldl (fun tasksByDate task =>
                 let completedDate := isoDate (default 0 (completedAt task)) in
                 pushByDate completedDate (mkFiled task true) tasksByDate)
              [] tasksToMove in
      let dir :=
        foldl (fun dir '(dateStr, tasksForDate) =>
                 archiveTasks now dateStr tasksForDate dir)
              dir tasksByDate in
      let remainingTasks :=
        filter (fun task => completedBefore cutoffTime task = false) tasks in
      (Moved (length tasksToMove), (writeTasks remainingTasks, dir)).

End Cleanup.

(** ** The TaskTimer class: the timer shown in the page *)

Module TaskTimer.

(** The TaskTimer object; [intervalId] is the handle of setInterval, an
    integer above zero. *)
Record t : Type := mk {
  intervalId : option positive;
  activeTaskId : option string;
  previousTimeSpent : Z;
  startedAt : option Z
}.

Definition new : t :=
  {| intervalId := None; activeTaskId := None; previousTimeSpent := 0;
     startedAt := None |}.

Definition stop (this : t) : t :=
  {| intervalId := None; activeTaskId := None; previousTimeSpent := 0;
     startedAt := None |}.

(** The text of the display for a number of seconds: Math.floor of the
    quotients, [%] for the remainders, each field padded to two places. *)
Definition formatTime (seconds : Z) : string :=
  let hours := seconds / 3600 in
  let minutes := Z.rem seconds 3600 / 60 in
  let secs := Z.rem seconds 60 in
  padStart2 (String_ (Some hours)) +:+ ":"
    +:+ padStart2 (String_ (Some minutes)) +:+ ":"
    +:+ padStart2 (String_ (Some secs)).

(** updateDisplay(), at the instant [now]: the text it writes, if any. *)
Definition updateDisplay (now : Z) (this : t) : option string :=
  match startedAt this with
  | Some started =>
      if negb (truthy (activeTaskId this)) then None
      else
        let elapsed := (now - started) / 1000 in
        let totalSeconds := previousTimeSpent this + elapsed in
        let hours := totalSeconds / 3600 in
        let minutes := Z.rem totalSeconds 3600 / 60 in
        let seconds := Z.rem totalSeconds 60 in
        Some (padStart2 (String_ (Some hours)) +:+ ":"
                +:+ padStart2 (String_ (Some minutes)) +:+ ":"
                +:+ padStart2 (String_ (Some seconds)))
  | None => None
  end.

(** start(taskId, startedAt, previousTimeSpent); [handle] is what
    setInterval returns. *)
Definition start (taskId : string) (started : Z) (spent : Z)
    (handle : positive) (this : t) : t :=
  let this := stop this in
  {| intervalId := Some handle; activeTaskId := Some taskId;
     previousTimeSpent := spent; startedAt := Some started |}.

Definition getActiveTaskId (this : t) : option string := activeTaskId this.

Definition isRunning (this : t) : bool :=
  bool_decide (intervalId this <> None).

End TaskTimer.

(** App.resumeActiveTask(), on a page load: the timer is started for the
    first task in progress of the list, if that task has a start time. *)
Definition resumeActiveTask (tasks : list Task) (handle : positive)
    (timer : TaskTimer.t) : TaskTimer.t :=
  match snd <$> list_find (fun task => inProgress task = true) tasks with
  | Some activeTask =>
      match startedAt activeTask with
      | Some started =>
          TaskTimer.start (id activeTask) started (timeSpent activeTask)
                          handle timer
      | None => timer
      end
  | None => timer
  end.

(** ** The TaskManager class: the links of the task form *)

(** String methods on strings whose code units are all below 256. *)
Module JSString.

(** The white space and line terminators of ECMA-262 in that range: tab to
    carriage return, space, no-break space. *)
Definition isWhiteSpace (c : ascii) : bool :=
  let n := Z.of_N (N_of_ascii c) in
  ((9 <=? n) && (n <=? 13)) || (n =? 32) || (n =? 160).

Fixpoint trimStart (s : string) : string :=
  match s with
  | EmptyString => EmptyString
  | String c rest => if isWhiteSpace c then trimStart rest else s
  end.

Fixpoint trimEnd (s : string) : string :=
  match s with
  | EmptyString => EmptyString
  | String c rest =>
      match trimEnd rest with
      | EmptyString =>
          if isWhiteSpace c then EmptyString else String c EmptyString
      | kept => String c kept
      end
  end.

Definition trim (s : string) : string := trimEnd (trimStart s).

(** Array.prototype.join on an array of strings. *)
Fixpoint join (separator : string) (parts : list string) : string :=
  match parts with
  | [] => EmptyString
  | [part] => part
  | part :: rest => part +:+ separator +:+ join separator rest
  end.

End JSString.

Module TaskManager.

(** parseLinks(linksString): null and the empty string give no link. *)
Definition parseLinks (linksString : option string) : list string :=
  if negb (truthy linksString) then []
  else
    filter (fun link => (0 < String.length link)%nat)
           (JSString.trim <$> split "," (default "" linksString)).

(** linksToString(links): what is not an array gives the empty string. *)
Definition linksToString (links : option (list string)) : string :=
  match links with
  | Some links => JSString.join ", " links
  | None => EmptyString
  end.

End TaskManager.

(** ** Sample data for the worked examples *)

Definition sampleTask (taskId : string) : Task :=
  {| id := taskId; description := "Write the report"; dueDate := None;
     dueTime := None; priority := "medium"; recurring := None;
     details := None; links := []; isAppointment := false;
     reminderMinutes := None; workingDaysOnly := false;
     completed := false; archived := false; inProgress := false;
     startedAt := None; timeSpent := 0; completedAt := None;
     createdAt := 0; updatedAt := 0 |}.


(** A task whose timer was started at [started] with [spent] seconds
    already on it. *)
Definition sampleRunning (taskId : string) (started spent : Z) : Task :=
  {| id := taskId; description := "Review"; dueDate := None;
     dueTime := None; priority := "low"; recurring := None;
     details := None; links := []; isAppointment := false;
     reminderMinutes := None; workingDaysOnly := false;
     completed := false; archived := false; inProgress := true;
     startedAt := Some started; timeSpent := spent; completedAt := None;
     createdAt := 0; updatedAt := started |}.

(** The body of a POST that gives a description only, or an id with it. *)
Definition sampleBody (taskId : option string) (text : string) : TaskBody :=
  {| b_id := taskId; b_description := Some text; b_dueDate := None;
     b_dueTime := None; b_priority := None; b_links := None;
     b_recurring := None; b_details := None; b_isAppointment := false;
     b_reminderMinutes := None; b_workingDaysOnly := false |}.

(** trim on strings that have no blanks around them, and a URL check that
    accepts every link: enough for the bodies above, which have no links. *)
Definition trimmed (s : string) : string := s.
Definition anyURL (link : string) : bool := true.





(** * Properties *)

(** ** The calendar of the Date built-in *)

Module JSDateFacts.

Ltac zdiv := Z.div_mod_to_equations; lia.

(** Sums of literals that [cbn] leaves alone. *)
Ltac norm_lit :=
  repeat match goal with
  | |- context [Z.pos ?a + Z.pos ?b] =>
      let v := eval vm_compute in (Z.pos a + Z.pos b) in
      change (Z.pos a + Z.pos b) with v
  | |- context [0 + Z.pos ?b] => change (0 + Z.pos b) with (Z.pos b)
  | H : context [Z.pos ?a + Z.pos ?b] |- _ =>
      let v := eval vm_compute in (Z.pos a + Z.pos b) in
      change (Z.pos a + Z.pos b) with v in H
  | H : context [0 + Z.pos ?b] |- _ =>
      change (0 + Z.pos b) with (Z.pos b) in H
  end.

Ltac split_ltb :=
  repeat match goal with
  | |- context [?a <? ?b] => destruct (Z.ltb_spec a b)
  end.

Lemma DayFromYear_succ y : DayFromYear (y + 1) = DayFromYear y + DaysInYear y.
Proof.
  unfold DayFromYear, DaysInYear, isLeap.
  repeat match goal with
  | |- context [?a =? ?b] => destruct (Z.eqb_spec a b)
  end; cbn [negb andb orb]; zdiv.
Qed.

Lemma DayFromYear_mono a b : a <= b -> DayFromYear a <= DayFromYear b.
Proof. unfold DayFromYear. intros. zdiv. Qed.

Lemma YearFromDay_bounds n :
  DayFromYear (YearFromDay n) <= n < DayFromYear (YearFromDay n + 1).
Proof.
  unfold YearFromDay.
  set (y := 1970 + 400 * n / 146097).
  assert (DayFromYear (y - 1) <= n < DayFromYear (y + 2)).
  { unfold DayFromYear, y. zdiv. }
  destruct (Z.ltb_spec n (DayFromYear y)).
  - replace (y - 1 + 1) with y by lia. lia.
  - destruct (Z.leb_spec (DayFromYear (y + 1)) n).
    + replace (y + 1 + 1) with (y + 2) by lia. lia.
    + lia.
Qed.

(** [YearFromDay n] is the one year that contains day [n]. *)
Lemma YearFromDay_unique n y :
  DayFromYear y <= n < DayFromYear (y + 1) -> YearFromDay n = y.
Proof.
  intros Hy. pose proof (YearFromDay_bounds n) as Hb.
  destruct (Z.lt_trichotomy (YearFromDay n) y) as [Hlt | [Heq | Hgt]];
    [| exact Heq |].
  - pose proof (DayFromYear_mono (YearFromDay n + 1) y ltac:(lia)). lia.
  - pose proof (DayFromYear_mono (y + 1) (YearFromDay n) ltac:(lia)). lia.
Qed.

Lemma DayWithinYear_range n : 0 <= DayWithinYear n < 365 + InLeapYear n.
Proof.
  unfold DayWithinYear, InLeapYear.
  pose proof (YearFromDay_bounds n) as Hb.
  rewrite DayFromYear_succ in Hb. unfold DaysInYear in Hb.
  destruct (isLeap (YearFromDay n)); lia.
Qed.

Lemma MonthFromDay_range n : 0 <= MonthFromDay n <= 11.
Proof. unfold MonthFromDay. split_ltb; lia. Qed.

Lemma DateFromDay_range n :
  1 <= DateFromDay n <= DaysInMonth (YearFromDay n) (MonthFromDay n + 1).
Proof.
  pose proof (DayWithinYear_range n) as Hr.
  unfold DateFromDay, MonthFromDay, DaysInMonth, InLeapYear in *.
  destruct (isLeap (YearFromDay n)); split_ltb; norm_lit; cbn; lia.
Qed.

(** The date of MakeDay only shifts the day number. *)
Lemma MakeDay_shift y m d k : MakeDay y m (d + k) = MakeDay y m d + k.
Proof. unfold MakeDay. lia. Qed.

(** Day number, to calendar fields, and back. *)
Lemma MakeDay_fields n :
  MakeDay (YearFromDay n) (MonthFromDay n) (DateFromDay n) = n.
Proof.
  pose proof (MonthFromDay_range n) as Hm.
  unfold MakeDay.
  replace (MonthFromDay n / 12) with 0 by zdiv.
  replace (MonthFromDay n mod 12) with (MonthFromDay n) by zdiv.
  rewrite Z.add_0_r. unfold DateFromDay, DayWithinYear, InLeapYear. lia.
Qed.

Lemma month_cases m :
  0 <= m <= 11 ->
  m = 0 \/ m = 1 \/ m = 2 \/ m = 3 \/ m = 4 \/ m = 5 \/
  m = 6 \/ m = 7 \/ m = 8 \/ m = 9 \/ m = 10 \/ m = 11.
Proof. lia. Qed.

Ltac each_month m Hm :=
  destruct (month_cases m Hm)
    as [->|[->|[->|[->|[->|[->|[->|[->|[->|[->|[->| ->]]]]]]]]]]].

Lemma MakeDay_in_year y m d :
  0 <= m <= 11 ->
  MakeDay y m d =
  DayFromYear y + monthOffset (if isLeap y then 1 else 0) m + d - 1.
Proof.
  intros Hm. unfold MakeDay. replace (m / 12) with 0 by zdiv.
  replace (m mod 12) with m by zdiv. now rewrite Z.add_0_r.
Qed.

(** Calendar fields of a real date, to its day number, and back. *)
Lemma fields_MakeDay y m d :
  0 <= m <= 11 -> 1 <= d <= DaysInMonth y (m + 1) ->
  YearFromDay (MakeDay y m d) = y /\
  MonthFromDay (MakeDay y m d) = m /\
  DateFromDay (MakeDay y m d) = d.
Proof.
  intros Hm Hd. pose proof (MakeDay_in_year y m d Hm) as Hday.
  assert (Hy : YearFromDay (MakeDay y m d) = y).
  { apply YearFromDay_unique. rewrite DayFromYear_succ, Hday.
    unfold DaysInYear, DaysInMonth in *.
    each_month m Hm; destruct (isLeap y); norm_lit; cbn in *; lia. }
  split; [exact Hy |].
  unfold DateFromDay, MonthFromDay, DayWithinYear, InLeapYear.
  rewrite Hy, Hday. unfold DaysInMonth in Hd.
  each_month m Hm; destruct (isLeap y); norm_lit; cbn in Hd |- *;
    split_ltb; norm_lit; cbn; lia.
Qed.

Lemma civil_valid n : let '(y, m, d) := civil n in valid_date y m d.
Proof.
  unfold civil, valid_date.
  pose proof (MonthFromDay_range n). pose proof (DateFromDay_range n). lia.
Qed.

Lemma civil_MakeDay y m d :
  valid_date y m d -> civil (MakeDay y (m - 1) d) = (y, m, d).
Proof.
  intros [Hm Hd]. unfold civil.
  destruct (fields_MakeDay y (m - 1) d) as (-> & -> & ->); [lia | |].
  - now replace (m - 1 + 1) with m by lia.
  - f_equal. f_equal. lia.
Qed.

Lemma next_day_valid y m d :
  valid_date y m d ->
  let '(y', m', d') := next_day (y, m, d) in valid_date y' m' d'.
Proof.
  intros [Hm Hd]. unfold next_day, valid_date.
  destruct (Z.ltb_spec d (DaysInMonth y m)); [lia |].
  destruct (Z.ltb_spec m 12).
  - split; [lia |]. unfold DaysInMonth.
    assert (Hc : 0 <= m - 1 <= 11) by lia.
    replace m with (m - 1 + 1) by lia.
    each_month (m - 1) Hc; norm_lit; cbn; try destruct (isLeap y); lia.
  - cbn. lia.
Qed.

(** The day number of the next calendar day is the next day number. *)
Lemma MakeDay_next_day y m d :
  valid_date y m d ->
  let '(y', m', d') := next_day (y, m, d) in
  MakeDay y' (m' - 1) d' = MakeDay y (m - 1) d + 1.
Proof.
  intros [Hm Hd]. unfold next_day.
  destruct (Z.ltb_spec d (DaysInMonth y m)).
  - apply MakeDay_shift.
  - assert (Hc : 0 <= m - 1 <= 11) by lia.
    assert (Hlast : d = DaysInMonth y m) by lia.
    destruct (Z.ltb_spec m 12).
    + rewrite !MakeDay_in_year by lia. rewrite Hlast.
      remember (m - 1) as k eqn:Hk. assert (m = k + 1) as -> by lia.
      replace (k + 1 + 1 - 1) with (k + 1) by lia.
      unfold DaysInMonth.
      each_month k Hc; norm_lit; cbn; try destruct (isLeap y); lia.
    + assert (m = 12) as -> by lia.
      rewrite !MakeDay_in_year by lia. rewrite Hlast.
      change (12 - 1) with 11. change (1 - 1) with 0.
      rewrite DayFromYear_succ. unfold DaysInYear, DaysInMonth.
      cbn. destruct (isLeap y); destruct (isLeap (y + 1)); lia.
Qed.

(** Adding one to the day number is moving to the next calendar day. *)
Lemma civil_succ n : civil (n + 1) = next_day (civil n).
Proof.
  pose proof (civil_valid n) as Hv. pose proof (MakeDay_fields n) as Hn.
  unfold civil in *.
  set (y := YearFromDay n) in *. set (m := MonthFromDay n) in *.
  set (d := DateFromDay n) in *.
  pose proof (MakeDay_next_day y (m + 1) d Hv) as Hs.
  pose proof (next_day_valid y (m + 1) d Hv) as Hv'.
  destruct (next_day (y, m + 1, d)) as [[y' m'] d'].
  replace (m + 1 - 1) with m in Hs by lia. rewrite Hn in Hs.
  rewrite <- Hs. fold (civil (MakeDay y' (m' - 1) d')).
  now apply civil_MakeDay.
Qed.

Lemma civil_add n (k : nat) :
  civil (n + Z.of_nat k) = Nat.iter k next_day (civil n).
Proof.
  induction k as [| k IH].
  - now replace (n + Z.of_nat 0) with n by lia.
  - rewrite Nat.iter_succ, <- IH, <- civil_succ.
    now replace (n + Z.of_nat (S k)) with (n + Z.of_nat k + 1) by lia.
Qed.

(** The next day is the next day of the week. *)
Lemma WeekDay_succ n : WeekDay (n + 1) = (WeekDay n + 1) mod 7.
Proof. unfold WeekDay. zdiv. Qed.

Lemma WeekDay_range n : 0 <= WeekDay n <= 6.
Proof. unfold WeekDay. zdiv. Qed.

End JSDateFacts.

Import JSDateFacts.

(** ** Dates as strings *)

(** The decimal digits that String prints for a number are read back by
    Number, and hold no dash for split to cut at. *)
Lemma digits_of_uint_acc d acc :
  digits (NilEmpty.string_of_uint d) (Z.pos acc)
  = Some (Z.pos (Pos.of_uint_acc d acc)).
Proof.
  revert acc. induction d; intros acc;
    cbn [NilEmpty.string_of_uint digits Pos.of_uint_acc];
    [reflexivity | ..];
    match goal with
    | |- context [digit ?c] =>
        let v := eval vm_compute in (digit c) in change (digit c) with v
    end; cbv iota beta;
    match goal with
    | |- digits _ ?a = Some (Z.pos (Pos.of_uint_acc _ ?b)) =>
        replace a with (Z.pos b) by lia
    end; apply IHd.
Qed.

Lemma digits_of_uint d :
  digits (NilEmpty.string_of_uint d) 0 = Some (Z.of_N (Pos.of_uint d)).
Proof.
  induction d; cbn [NilEmpty.string_of_uint digits Pos.of_uint];
    [reflexivity | ..];
    match goal with
    | |- context [digit ?c] =>
        let v := eval vm_compute in (digit c) in change (digit c) with v
    end; cbv iota beta; [exact IHd | ..];
    match goal with
    | |- digits _ ?a = _ =>
        let v := eval vm_compute in a in change a with v
    end; apply digits_of_uint_acc.
Qed.

Lemma Number_String_ z : 0 <= z -> Number (String_ (Some z)) = Some z.
Proof.
  intros Hz. unfold Number, String_.
  destruct z as [| p | p]; [reflexivity | | lia].
  cbn [Z.to_int NilZero.string_of_int]. unfold Pos.to_int.
  pose proof (DecimalPos.Unsigned.of_to p) as Hp.
  unfold NilZero.string_of_uint.
  destruct (Pos.to_uint p) eqn:Hd; [discriminate Hp | ..];
    rewrite <- Hd, digits_of_uint, DecimalPos.Unsigned.of_to; reflexivity.
Qed.

Lemma dashFree_nil : dashFree "".
Proof. split; reflexivity. Qed.

Lemma dashFree_cons c s :
  Ascii.eqb c "-" = false -> dashFree s -> dashFree (String c s).
Proof.
  intros Hc [Hs Hrest]. split.
  - cbn [split]. now rewrite Hc, Hs.
  - intros rest.
    change (String c s +:+ String "-" rest)
      with (String c (s +:+ String "-" rest)).
    cbn [split]. now rewrite Hc, Hrest.
Qed.

Lemma dashFree_uint d : dashFree (NilEmpty.string_of_uint d).
Proof.
  induction d; cbn [NilEmpty.string_of_uint];
    [apply dashFree_nil | ..]; now apply dashFree_cons.
Qed.

Lemma dashFree_String_ z : 0 <= z -> dashFree (String_ (Some z)).
Proof.
  intros Hz. unfold String_. destruct z as [| p | p]; [| | lia].
  - now repeat apply dashFree_cons; try apply dashFree_nil.
  - cbn [Z.to_int NilZero.string_of_int]. unfold Pos.to_int.
    unfold NilZero.string_of_uint.
    destruct (Pos.to_uint p) eqn:Hd; rewrite <- ?Hd; try apply dashFree_uint.
    now repeat apply dashFree_cons; try apply dashFree_nil.
Qed.

(** Padding to two places puts a zero in front, which changes neither. *)
Lemma padStart2_digits s z :
  Number s = Some z -> dashFree s ->
  Number (padStart2 s) = Some z /\ dashFree (padStart2 s).
Proof.
  intros Hn Hd. destruct s as [| c [| c' s]]; cbn [padStart2].
  - injection Hn as <-. split; [reflexivity |].
    now repeat apply dashFree_cons; try apply dashFree_nil.
  - split; [exact Hn | now apply dashFree_cons].
  - now split.
Qed.

(** A date printed by the function is read by the function as that date. *)
Lemma formatCivil_readsAs y m d :
  0 <= y -> 0 <= m -> 0 <= d -> readsAs (formatCivil (y, m, d)) y m d.
Proof.
  intros Hy Hm Hd. unfold readsAs, formatCivil, formatYMD.
  destruct (padStart2_digits _ m (Number_String_ m Hm) (dashFree_String_ m Hm))
    as [Hnm [_ Hsm]].
  destruct (padStart2_digits _ d (Number_String_ d Hd) (dashFree_String_ d Hd))
    as [Hnd [Hsd _]].
  destruct (dashFree_String_ y Hy) as [_ Hsy].
  change (String_ (Some y) +:+ "-" +:+ padStart2 (String_ (Some m)) +:+ "-"
            +:+ padStart2 (String_ (Some d)))
    with (String_ (Some y)
            +:+ String "-" (padStart2 (String_ (Some m))
                              +:+ String "-" (padStart2 (String_ (Some d))))).
  rewrite Hsy, Hsm, Hsd. cbn [fmap list_fmap].
  now rewrite (Number_String_ y Hy), Hnm, Hnd.
Qed.

(** ** calculateNextDueDate *)

Lemma setDate_getDate n c :
  setDate (Some n) ((fun k => k + c) <$> getDate (Some n)) = TimeClip (n + c).
Proof.
  cbn. now rewrite MakeDay_shift, MakeDay_fields.
Qed.

Lemma readsAs_truthy s y m d : readsAs s y m d -> truthy (Some s) = true.
Proof.
  unfold readsAs. destruct s; [discriminate | reflexivity].
Qed.

Lemma formatDay_civil n : formatDay n = formatCivil (civil n).
Proof. reflexivity. Qed.

Lemma TimeClip_in n : Z.abs n <= 100000000 -> TimeClip n = Some n.
Proof.
  intros H. unfold TimeClip.
  now destruct (Z.leb_spec (Z.abs n) 100000000); [| lia].
Qed.


Lemma TimeClip_Some n k : TimeClip n = Some k -> k = n /\ Z.abs n <= 100000000.
Proof.
  unfold TimeClip. destruct (Z.leb_spec (Z.abs n) 100000000); [| discriminate].
  intros [= <-]. auto.
Qed.




Lemma YearFromDay_nonneg n : DayFromYear 0 <= n -> 0 <= YearFromDay n.
Proof.
  intros Hn. pose proof (YearFromDay_bounds n) as Hb.
  destruct (Z.lt_ge_cases (YearFromDay n) 0) as [Hneg | Hpos]; [| exact Hpos].
  pose proof (DayFromYear_mono (YearFromDay n + 1) 0 ltac:(lia)). lia.
Qed.

(** The date of a day from the year 0 on, printed, reads as that date. *)
Lemma formatDay_readsAs n :
  DayFromYear 0 <= n ->
  readsAs (formatDay n) (YearFromDay n) (MonthFromDay n + 1) (DateFromDay n).
Proof.
  intros Hn. rewrite formatDay_civil. unfold civil.
  pose proof (MonthFromDay_range n). pose proof (DateFromDay_range n).
  apply formatCivil_readsAs; [now apply YearFromDay_nonneg | lia | lia].
Qed.




(** The function on a due date of three digit fields, case by case. *)
Lemma calc_weekly s y m d w :
  readsAs s y m d ->
  calculateNextDueDate (Some s) (Some "weekly") w =
  Some (match newDate (Some y) (Some (m - 1)) (Some d) with
        | Some n0 =>
            match TimeClip (n0 + 7) with
            | Some n => formatDay n
            | None => invalidDate
            end
        | None => invalidDate
        end).
Proof.
  intros Hs. unfold calculateNextDueDate.
  rewrite (readsAs_truthy _ _ _ _ Hs). cbn [truthy negb orb String.eqb].
  change (default "" (Some s)) with s. rewrite Hs.
  cbn [lookup list_lookup mjoin option_join fmap option_fmap option_map].
  rewrite bool_decide_eq_false_2 by discriminate.
  rewrite bool_decide_eq_true_2 by reflexivity.
  destruct (newDate (Some y) (Some (m - 1)) (Some d)) as [n0 |];
    [| reflexivity].
  rewrite setDate_getDate. now destruct (TimeClip (n0 + 7)).
Qed.

Lemma calc_daily s y m d :
  readsAs s y m d ->
  calculateNextDueDate (Some s) (Some "daily") false =
  Some (match newDate (Some y) (Some (m - 1)) (Some d) with
        | Some n0 =>
            match TimeClip (n0 + 1) with
            | Some n => formatDay n
            | None => invalidDate
            end
        | None => invalidDate
        end).
Proof.
  intros Hs. unfold calculateNextDueDate.
  rewrite (readsAs_truthy _ _ _ _ Hs). cbn [truthy negb orb String.eqb].
  change (default "" (Some s)) with s. rewrite Hs.
  cbn [lookup list_lookup mjoin option_join fmap option_fmap option_map].
  rewrite bool_decide_eq_true_2 by reflexivity.
  destruct (newDate (Some y) (Some (m - 1)) (Some d)) as [n0 |];
    [| reflexivity].
  rewrite setDate_getDate. now destruct (TimeClip (n0 + 1)).
Qed.





(** The first version of the function is the current one without the
    working-days flag. *)
Lemma calculateNextDueDate_v1_eq currentDate recurring :
  calculateNextDueDate_v1 currentDate recurring =
  calculateNextDueDate currentDate recurring false.
Proof. reflexivity. Qed.

(** ** The task store *)

Lemma findById_Some taskId tasks i task :
  findById taskId tasks = Some (i, task) ->
  tasks !! i = Some task /\ id task = taskId.
Proof.
  unfold findById. intros (? & ? & _)%list_find_Some. auto.
Qed.

Lemma findById_None taskId tasks :
  findById taskId tasks = None <-> Forall (fun task => id task <> taskId) tasks.
Proof. unfold findById. apply list_find_None. Qed.

(** Replacing the first task with a given id by a task of the same id
    keeps it the first one. *)
Lemma findById_insert taskId tasks i task task' :
  findById taskId tasks = Some (i, task) -> id task' = taskId ->
  findById taskId (<[i := task']> tasks) = Some (i, task').
Proof.
  unfold findById. intros (Hi & _ & Hleast)%list_find_Some Hid.
  apply list_find_insert_Some. right; left.
  split_and!; eauto using lookup_lt_Some.
Qed.

Lemma findById_app taskId tasks more i task :
  findById taskId tasks = Some (i, task) ->
  findById taskId (tasks ++ more) = Some (i, task).
Proof. unfold findById. apply list_find_app_l. Qed.

Lemma getTask_Some taskId file task :
  getTask taskId file = Some task <->
  exists i, findById taskId file = Some (i, task).
Proof.
  unfold getTask, readTasks. split.
  - destruct (findById taskId file) as [[i t] |]; [| discriminate].
    intros [= ->]. eauto.
  - intros [i ->]. reflexivity.
Qed.

Lemma getTask_None taskId file :
  getTask taskId file = None <-> findById taskId file = None.
Proof.
  unfold getTask, readTasks.
  destruct (findById taskId file) as [[i t] |]; cbn; split; congruence.
Qed.

(** saveTask on a task that is in the file overwrites its entry. *)
Lemma saveTask_found file i task task' :
  findById (id task') file = Some (i, task) ->
  saveTask task' file = <[i := task']> file.
Proof. unfold saveTask, readTasks, writeTasks. now intros ->. Qed.

(** What POST /api/tasks/:id/complete does to a task that is found. *)
Lemma complete_found file taskId i task now rnd :
  findById taskId file = Some (i, task) ->
  exists done,
    fst (post_tasks_complete taskId now rnd file) = Json done
    /\ id done = id task
    /\ timeSpent done = timeSpent task + elapsedSeconds now task
    /\ inProgress done = false /\ startedAt done = None
    /\ completed done = true /\ archived done = true
    /\ completedAt done = Some now
    /\ if truthy (recurring task) && truthy (dueDate task) then
         exists next,
           snd (post_tasks_complete taskId now rnd file)
             = <[i := done]> file ++ [next]
           /\ dueDate next = calculateNextDueDate (dueDate task)
                               (recurring task) (workingDaysOnly task)
           /\ recurring next = recurring task
           /\ workingDaysOnly next = workingDaysOnly task
           /\ inProgress next = false /\ completed next = false
           /\ archived next = false /\ timeSpent next = 0
       else snd (post_tasks_complete taskId now rnd file) = <[i := done]> file.
Proof.
  intros Hf. unfold post_tasks_complete, readTasks, writeTasks, elapsedSeconds.
  rewrite Hf.
  destruct (inProgress task) eqn:Hp, (startedAt task) as [started |] eqn:Hs;
    cbn [set_timeSpent set_completed set_archived set_inProgress
         set_startedAt set_completedAt set_updatedAt
         id timeSpent inProgress startedAt completed archived completedAt
         recurring dueDate workingDaysOnly fst snd];
    (eexists; split; [reflexivity |]);
    cbn [set_timeSpent set_completed set_archived set_inProgress
         set_startedAt set_completedAt set_updatedAt
         id timeSpent inProgress startedAt completed archived completedAt
         recurring dueDate workingDaysOnly];
    (split_and!; try reflexivity; try lia);
    destruct (truthy (recurring task) && truthy (dueDate task));
    solve [ reflexivity | eexists; repeat split ].
Qed.

(** ** Recurrence *)

(** The Date of a month from 1 to 12 and a day from 1 to 31 in a year from
    0 to 275759 exists, and the week after it too. *)
Lemma newDate_room y m d :
  1 <= m <= 12 -> 1 <= d <= 31 -> 0 <= y <= 275759 ->
  exists n0,
    newDate (Some y) (Some (m - 1)) (Some d) = Some n0
    /\ DayFromYear 0 <= n0 /\ n0 + 7 <= 100000000.
Proof.
  intros Hm Hd Hy. unfold newDate.
  set (yr := if (0 <=? y) && (y <=? 99) then 1900 + y else y).
  assert (Hyr : 100 <= yr <= 275759).
  { unfold yr. destruct (Z.leb_spec 0 y); [| lia].
    destruct (Z.leb_spec y 99); cbn [andb]; lia. }
  assert (Hc : 0 <= m - 1 <= 11) by lia.
  pose proof (MakeDay_in_year yr (m - 1) d Hc) as Hday.
  pose proof (DayFromYear_mono 100 yr ltac:(lia)) as Hlo.
  pose proof (DayFromYear_mono yr 275759 ltac:(lia)) as Hhi.
  change (DayFromYear 100) with (-683003) in Hlo.
  change (DayFromYear 275759) with 99999379 in Hhi.
  assert (Hoff : 0 <= monthOffset (if isLeap yr then 1 else 0) (m - 1) <= 335).
  { each_month (m - 1) Hc; destruct (isLeap yr); cbn; lia. }
  exists (MakeDay yr (m - 1) d).
  change (DayFromYear 0) with (-719528).
  split_and!; [apply TimeClip_in | |]; lia.
Qed.

Lemma DaysInMonth_upper y m : DaysInMonth y m <= 31.
Proof.
  unfold DaysInMonth.
  destruct m as [| p | p]; try lia.
  repeat (destruct p as [p | p |]; try lia); destruct (isLeap y); lia.
Qed.



(** The Date of a real calendar date from the year 100 to the year 275759:
    no two-digit year, no clipping, and seven days of room. *)
Lemma newDate_valid y m d :
  valid_date y m d -> 100 <= y <= 275759 ->
  newDate (Some y) (Some (m - 1)) (Some d) = Some (MakeDay y (m - 1) d)
  /\ DayFromYear 0 <= MakeDay y (m - 1) d
  /\ MakeDay y (m - 1) d + 7 <= 100000000.
Proof.
  intros [Hm Hd] Hy. pose proof (DaysInMonth_upper y m).
  destruct (newDate_room y m d) as (n0 & Hn0 & Hlo & Hhi); [lia | lia | lia |].
  assert (Heq : newDate (Some y) (Some (m - 1)) (Some d)
                = TimeClip (MakeDay y (m - 1) d)).
  { unfold newDate.
    now replace ((0 <=? y) && (y <=? 99)) with false
      by (symmetry; apply andb_false_iff; right; apply Z.leb_gt; lia). }
  rewrite Heq in Hn0 |- *. apply TimeClip_Some in Hn0 as [-> Habs].
  split_and!; [now apply TimeClip_in | lia | lia].
Qed.

(** C7, as amended. For a valid calendar date from the year 100 to the year
    275759, written as three digit fields, the weekly recurrence returns
    the date seven calendar days later, whatever the working-days flag. *)
Theorem weekly_adds_seven_days :
  forall s y m d w,
    readsAs s y m d -> valid_date y m d -> 100 <= y <= 275759 ->
    returnsDate (calculateNextDueDate (Some s) (Some "weekly") w)
                (Nat.iter 7 next_day (y, m, d)).
Proof.
  intros s y m d w Hs Hv Hy.
  destruct (newDate_valid y m d Hv Hy) as (Hnew & Hlo & Hhi).
  assert (Hzero : DayFromYear 0 = -719528) by reflexivity.
  rewrite (calc_weekly s y m d w Hs), Hnew, TimeClip_in by lia.
  pose proof (civil_add (MakeDay y (m - 1) d) 7) as Hciv.
  rewrite civil_MakeDay in Hciv by exact Hv.
  change (Z.of_nat 7) with 7 in Hciv. rewrite <- Hciv.
  split; [now rewrite formatDay_civil |].
  pose proof (civil_valid (MakeDay y (m - 1) d + 7)) as Hvalid.
  pose proof (formatDay_readsAs (MakeDay y (m - 1) d + 7) ltac:(lia)) as Hread.
  rewrite formatDay_civil in Hread. unfold civil in *. now split.
Qed.

Lemma weekly_adds_seven_days_witness :
  readsAs "2024-12-28" 2024 12 28 /\ valid_date 2024 12 28
  /\ 100 <= 2024 <= 275759
  /\ returnsDate
       (calculateNextDueDate (Some "2024-12-28") (Some "weekly") true)
       (Nat.iter 7 next_day (2024, 12, 28)).
Proof.
  split; [reflexivity |]. split; [unfold valid_date; cbn; lia |].
  split; [lia |].
  apply (weekly_adds_seven_days "2024-12-28" 2024 12 28 true);
    [reflexivity | unfold valid_date; cbn; lia | lia].
Defined.

(** C7, as stated, fails at both ends of the calendar: the Date constructor
    reads the year 50 as 1950, and a date whose seventh following day lies
    beyond the last day of Date gives no date at all. *)
Lemma weekly_seven_days_counterexample :
  (readsAs "0050-01-01" 50 1 1 /\ valid_date 50 1 1
   /\ Nat.iter 7 next_day (50, 1, 1) = (50, 1, 8)
   /\ calculateNextDueDate (Some "0050-01-01") (Some "weekly") false
        = Some "1950-01-08"
   /\ readsAs "1950-01-08" 1950 1 8)
  /\ (readsAs "275760-09-10" 275760 9 10 /\ valid_date 275760 9 10
      /\ Nat.iter 7 next_day (275760, 9, 10) = (275760, 9, 17)
      /\ calculateNextDueDate (Some "275760-09-10") (Some "weekly") false
           = Some "NaN-NaN-NaN")
  /\ ~ (forall s y m d w,
          readsAs s y m d -> valid_date y m d ->
          returnsDate (calculateNextDueDate (Some s) (Some "weekly") w)
                      (Nat.iter 7 next_day (y, m, d))).
Proof.
  assert (Hv : valid_date 50 1 1) by (unfold valid_date; cbn; lia).
  split; [| split].
  - split_and!;
      [reflexivity | exact Hv | reflexivity | reflexivity | reflexivity].
  - split_and!;
      [reflexivity | unfold valid_date; cbn; lia | reflexivity
      | vm_compute; reflexivity].
  - intros H. destruct (H "0050-01-01" 50 1 1 false eq_refl Hv) as [Hr _].
    vm_compute in Hr. discriminate Hr.
Qed.

(** C8. Without a due date the recurrence does nothing: the function gives
    back null for null and the empty string for the empty string, whatever
    the recurrence kind and the flag; and completing a task that has no due
    date changes that task only, so that the file gains no task. *)
Theorem no_due_date_no_recurrence :
  (forall currentDate recurring w,
     truthy currentDate = false ->
     calculateNextDueDate currentDate recurring w = currentDate)
  /\ (forall file taskId i task now rnd,
        findById taskId file = Some (i, task) ->
        truthy (dueDate task) = false ->
        exists done,
          post_tasks_complete taskId now rnd file
            = (Json done, <[i := done]> file)
          /\ length (snd (post_tasks_complete taskId now rnd file))
             = length file).
Proof.
  split.
  - intros currentDate recurring w Hc. unfold calculateNextDueDate.
    now rewrite Hc.
  - intros file taskId i task now rnd Hf Hdue.
    destruct (complete_found file taskId i task now rnd Hf)
      as (done & Hfst & _ & _ & _ & _ & _ & _ & _ & Hsnd).
    rewrite Hdue, andb_false_r in Hsnd. exists done.
    rewrite Hsnd, length_insert. split; [| reflexivity].
    destruct (post_tasks_complete taskId now rnd file); cbn in *; congruence.
Qed.

Lemma no_due_date_no_recurrence_witness :
  (truthy None = false
   /\ calculateNextDueDate None (Some "daily") true = None)
  /\ (truthy (Some "") = false
      /\ calculateNextDueDate (Some "") (Some "weekly") false = Some "")
  /\ findById "3" [sampleTask "1"; sampleTask "3"]
       = Some (1%nat, sampleTask "3")
  /\ truthy (dueDate (sampleTask "3")) = false
  /\ exists done,
       post_tasks_complete "3" 5000 7 [sampleTask "1"; sampleTask "3"]
         = (Json done, <[1%nat := done]> [sampleTask "1"; sampleTask "3"])
       /\ length (snd (post_tasks_complete "3" 5000 7
                         [sampleTask "1"; sampleTask "3"]))
          = length [sampleTask "1"; sampleTask "3"].
Proof.
  destruct no_due_date_no_recurrence as [Hfun Hcomplete].
  split; [split; [reflexivity | now apply Hfun] |].
  split; [split; [reflexivity | now apply Hfun] |].
  split; [reflexivity |]. split; [reflexivity |].
  apply (Hcomplete [sampleTask "1"; sampleTask "3"] "3" 1%nat (sampleTask "3"));
    reflexivity.
Defined.

(** ** Unknown ids *)

Lemma getTask_absent taskId file :
  Forall (fun task => id task <> taskId) file -> getTask taskId file = None.
Proof. intros H. now apply getTask_None, findById_None. Qed.

(** C9. For an id that no task of the file has, start, stop, complete,
    restore and delete answer 404 and leave tasks.json as it was. *)
Theorem unknown_id_not_found :
  forall file taskId now rnd,
    Forall (fun task => id task <> taskId) file ->
    post_tasks_start taskId now file = (NotFound, file)
    /\ post_tasks_stop taskId now file = (NotFound, file)
    /\ post_tasks_complete taskId now rnd file = (NotFound, file)
    /\ post_tasks_restore taskId now file = (NotFound, file)
    /\ delete_tasks taskId file = (NotFound, file).
Proof.
  intros file taskId now rnd Habsent.
  pose proof (getTask_absent taskId file Habsent) as Hget.
  split_and!.
  - unfold post_tasks_start, readTasks.
    match goal with
    | |- context [findById taskId ?l] =>
        replace (findById taskId l) with (@None (nat * Task)); [reflexivity |]
    end.
    symmetry. apply findById_None, Forall_fmap.
    eapply Forall_impl; [exact Habsent |]. intros task Hid. cbn.
    now destruct (inProgress task && negb (String.eqb (id task) taskId)).
  - unfold post_tasks_stop. now rewrite Hget.
  - unfold post_tasks_complete, readTasks.
    apply getTask_None in Hget. now rewrite Hget.
  - unfold post_tasks_restore. now rewrite Hget.
  - unfold delete_tasks. now rewrite Hget.
Qed.

Lemma unknown_id_not_found_witness :
  Forall (fun task => id task <> "9")
         [sampleRunning "1" 1000 0; sampleTask "2"]
  /\ post_tasks_start "9" 5000 [sampleRunning "1" 1000 0; sampleTask "2"]
       = (NotFound, [sampleRunning "1" 1000 0; sampleTask "2"])
  /\ post_tasks_complete "9" 5000 3 [sampleRunning "1" 1000 0; sampleTask "2"]
       = (NotFound, [sampleRunning "1" 1000 0; sampleTask "2"]).
Proof.
  assert (H : Forall (fun task => id task <> "9")
                     [sampleRunning "1" 1000 0; sampleTask "2"])
    by (repeat constructor; discriminate).
  split; [exact H |].
  destruct (unknown_id_not_found _ "9" 5000 3 H) as (Hstart & _ & Hdone & _).
  split; [exact Hstart | exact Hdone].
Defined.

(** ** Editing a task *)

(** C10. An update through POST /api/tasks with the id of a task of the
    file is either refused with 400, the file staying as it was, or
    replaces that one entry by a task with the same id, timeSpent,
    inProgress, startedAt, completed, archived, completedAt and createdAt,
    and with updatedAt set to now; in both versions of the handler. *)
Theorem edit_keeps_timer_and_lifecycle :
  forall trim validURL body now file taskId i old,
    b_id body = Some taskId -> taskId <> "" ->
    findById taskId file = Some (i, old) ->
    forall handler,
      handler = post_tasks trim validURL
      \/ handler = post_tasks_v1 trim validURL ->
      (exists error, handler body now file = (BadRequest error, file))
      \/ (exists new,
            handler body now file = (Json new, <[i := new]> file)
            /\ id new = id old
            /\ timeSpent new = timeSpent old
            /\ inProgress new = inProgress old
            /\ startedAt new = startedAt old
            /\ completed new = completed old
            /\ archived new = archived old
            /\ completedAt new = completedAt old
            /\ createdAt new = createdAt old
            /\ updatedAt new = now).
Proof.
  intros trim validURL body now file taskId i old Hid Hne Hfind handler Hh.
  assert (Hget : getTask taskId file = Some old)
    by (apply getTask_Some; eauto).
  assert (Htruthy : truthy (Some taskId) = true).
  { destruct taskId; [congruence | reflexivity]. }
  destruct (findById_Some _ _ _ _ Hfind) as [_ Hold].
  destruct Hh as [-> | ->]; unfold post_tasks, post_tasks_v1;
    (destruct (negb (truthy (b_description body))
               || String.eqb (trim (default "" (b_description body))) "");
       [left; eauto |]);
    (destruct (truthy (b_recurring body)
               && negb (bool_decide (default "" (b_recurring body)
                                       ∈ ["daily"; "weekly"])));
       [left; eauto |]);
    rewrite Hid, Htruthy; cbn [default from_option Datatypes.id];
    rewrite Hget;
    match goal with
    | |- context [validateTask trim validURL ?t] =>
        destruct (validateTask trim validURL t); [left; eauto | right];
        exists t; split;
          [f_equal; apply (saveTask_found file i old); cbn [id];
           rewrite Hold; exact Hfind
          | cbn; split_and!; reflexivity]
    end.
Qed.

Lemma edit_keeps_timer_and_lifecycle_witness :
  b_id (sampleBody (Some "1") "Review again") = Some "1" /\ "1" <> ""
  /\ findById "1" [sampleRunning "1" 1000 90; sampleTask "2"]
       = Some (0%nat, sampleRunning "1" 1000 90)
  /\ ((exists error,
         post_tasks trimmed anyURL (sampleBody (Some "1") "Review again")
           7000 [sampleRunning "1" 1000 90; sampleTask "2"]
         = (BadRequest error, [sampleRunning "1" 1000 90; sampleTask "2"]))
      \/ (exists new,
            post_tasks trimmed anyURL (sampleBody (Some "1") "Review again")
              7000 [sampleRunning "1" 1000 90; sampleTask "2"]
            = (Json new,
               <[0%nat := new]> [sampleRunning "1" 1000 90; sampleTask "2"])
            /\ id new = id (sampleRunning "1" 1000 90)
            /\ timeSpent new = timeSpent (sampleRunning "1" 1000 90)
            /\ inProgress new = inProgress (sampleRunning "1" 1000 90)
            /\ startedAt new = startedAt (sampleRunning "1" 1000 90)
            /\ completed new = completed (sampleRunning "1" 1000 90)
            /\ archived new = archived (sampleRunning "1" 1000 90)
            /\ completedAt new = completedAt (sampleRunning "1" 1000 90)
            /\ createdAt new = createdAt (sampleRunning "1" 1000 90)
            /\ updatedAt new = 7000)).
Proof.
  split; [reflexivity |]. split; [discriminate |]. split; [reflexivity |].
  apply (edit_keeps_timer_and_lifecycle trimmed anyURL
           (sampleBody (Some "1") "Review again") 7000
           [sampleRunning "1" 1000 90; sampleTask "2"] "1" 0%nat
           (sampleRunning "1" 1000 90));
    [reflexivity | discriminate | reflexivity | left; reflexivity].
Defined.

(** ** Timer accounting *)

(** What POST /api/tasks/:id/stop does to a task that is found. *)
Lemma stop_found file taskId i task now :
  findById taskId file = Some (i, task) ->
  exists stopped,
    post_tasks_stop taskId now file = (Json stopped, <[i := stopped]> file)
    /\ id stopped = id task
    /\ timeSpent stopped = timeSpent task + elapsedSeconds now task
    /\ inProgress stopped = false /\ startedAt stopped = None.
Proof.
  intros Hf. destruct (findById_Some _ _ _ _ Hf) as [_ Hid].
  unfold post_tasks_stop, elapsedSeconds.
  replace (getTask taskId file) with (Some task)
    by (symmetry; apply getTask_Some; eauto).
  destruct (inProgress task) eqn:Hp, (startedAt task) as [started |] eqn:Hs;
    (eexists; split;
     [f_equal; apply (saveTask_found file i task); cbn [id set_updatedAt
        set_startedAt set_inProgress set_timeSpent]; rewrite Hid; exact Hf
     | cbn; split_and!; reflexivity || lia]).
Qed.

(** What POST /api/tasks/:id/start does to a task that is found: one entry
    of the file is replaced, by the started task. *)
Lemma start_found file taskId i task now :
  findById taskId file = Some (i, task) ->
  exists started,
    post_tasks_start taskId now file = (Json started, <[i := started]> file)
    /\ id started = id task
    /\ inProgress started = true /\ startedAt started = Some now
    /\ timeSpent started = timeSpent task.
Proof.
  intros Hf. destruct (findById_Some _ _ _ _ Hf) as [_ Hid].
  unfold post_tasks_start, readTasks, findById.
  rewrite list_find_fmap.
  rewrite (list_find_ext _ (fun task => id task = taskId)).
  2:{ intros t. cbn.
      now destruct (inProgress t && negb (String.eqb (id t) taskId)). }
  fold (findById taskId file). rewrite Hf. cbn [fmap option_fmap option_map
    prod_map fst snd Datatypes.id].
  assert (Hsame : String.eqb (id task) taskId = true)
    by now apply String.eqb_eq.
  rewrite Hsame, andb_false_r.
  eexists; split;
    [f_equal; apply (saveTask_found file i task); cbn [id set_updatedAt
       set_startedAt set_inProgress]; rewrite Hid; exact Hf
    | cbn; split_and!; reflexivity].
Qed.

(** C2, as amended. Stop and complete add to timeSpent, in the file, the
    whole seconds between startedAt and the clock, rounded down, when the
    task is running and has a start time, and nothing otherwise. The amount
    is not negative when startedAt is not after the clock. *)
Theorem stop_complete_add_elapsed_seconds :
  forall file taskId i task now rnd,
    findById taskId file = Some (i, task) ->
    (exists stopped,
       post_tasks_stop taskId now file = (Json stopped, <[i := stopped]> file)
       /\ timeSpent stopped = timeSpent task + elapsedSeconds now task)
    /\ (exists done,
          fst (post_tasks_complete taskId now rnd file) = Json done
          /\ snd (post_tasks_complete taskId now rnd file) !! i = Some done
          /\ timeSpent done = timeSpent task + elapsedSeconds now task)
    /\ (inProgress task = false \/ startedAt task = None ->
        elapsedSeconds now task = 0)
    /\ (forall started,
          inProgress task = true -> startedAt task = Some started ->
          elapsedSeconds now task = (now - started) / 1000
          /\ 1000 * elapsedSeconds now task <= now - started
               < 1000 * elapsedSeconds now task + 1000
          /\ (started <= now -> 0 <= elapsedSeconds now task)).
Proof.
  intros file taskId i task now rnd Hf.
  destruct (findById_Some _ _ _ _ Hf) as [Hi _].
  split_and!.
  - destruct (stop_found file taskId i task now Hf)
      as (stopped & ? & _ & ? & _).
    eauto.
  - destruct (complete_found file taskId i task now rnd Hf)
      as (done & Hfst & _ & Htime & _ & _ & _ & _ & _ & Hsnd).
    exists done. split_and!; [exact Hfst | | exact Htime].
    assert (Hin : <[i := done]> file !! i = Some done)
      by (apply list_lookup_insert_eq; eauto using lookup_lt_Some).
    destruct (truthy (recurring task) && truthy (dueDate task)).
    + destruct Hsnd as (next & -> & _). now apply lookup_app_l_Some.
    + now rewrite Hsnd.
  - unfold elapsedSeconds. intros [-> | ->]; [reflexivity |].
    now destruct (inProgress task).
  - intros started Hp Hs. unfold elapsedSeconds. rewrite Hp, Hs.
    split_and!; [reflexivity | zdiv | zdiv | intros; zdiv].
Qed.

Lemma stop_complete_add_elapsed_seconds_witness :
  findById "1" [sampleRunning "1" 1000 90; sampleTask "2"]
    = Some (0%nat, sampleRunning "1" 1000 90)
  /\ (exists stopped,
        post_tasks_stop "1" 8500 [sampleRunning "1" 1000 90; sampleTask "2"]
          = (Json stopped,
             <[0%nat := stopped]> [sampleRunning "1" 1000 90; sampleTask "2"])
        /\ timeSpent stopped
           = timeSpent (sampleRunning "1" 1000 90)
             + elapsedSeconds 8500 (sampleRunning "1" 1000 90))
  /\ elapsedSeconds 8500 (sampleRunning "1" 1000 90) = 7.
Proof.
  split; [reflexivity |]. split; [| reflexivity].
  apply (stop_complete_add_elapsed_seconds
           [sampleRunning "1" 1000 90; sampleTask "2"] "1" 0%nat
           (sampleRunning "1" 1000 90) 8500 0).
  reflexivity.
Defined.

(** C2, as stated, fails when the clock is behind startedAt: the handlers
    take the difference as it comes, and timeSpent goes down. *)
Lemma negative_elapsed_counterexample :
  findById "1" [sampleRunning "1" 5000 10]
    = Some (0%nat, sampleRunning "1" 5000 10)
  /\ (exists stopped,
        post_tasks_stop "1" 1000 [sampleRunning "1" 5000 10]
          = (Json stopped, [stopped])
        /\ timeSpent stopped - timeSpent (sampleRunning "1" 5000 10) = -4)
  /\ (exists done,
        post_tasks_complete "1" 1000 0 [sampleRunning "1" 5000 10]
          = (Json done, [done])
        /\ timeSpent done - timeSpent (sampleRunning "1" 5000 10) = -4).
Proof.
  split; [reflexivity |].
  split; eexists; (split; [vm_compute; reflexivity | reflexivity]).
Qed.

(** C1. The file after two tasks are created and started one after the
    other: both are in progress. Starting the second task saved that task
    alone; the first one is still in the file as it was, running since its
    own start. *)
Theorem start_leaves_other_timer_running :
  exists a b,
    serve trimmed anyURL
      [(PostTask (sampleBody None "A"), 1000);
       (PostTask (sampleBody None "B"), 2000);
       (StartTask "1000", 3000);
       (StartTask "2000", 4000)] []
    = [a; b]
    /\ id a = "1000" /\ inProgress a = true /\ startedAt a = Some 3000
    /\ id b = "2000" /\ inProgress b = true /\ startedAt b = Some 4000
    /\ running [a; b] = [a; b].
Proof.
  do 2 eexists. split; [vm_compute; reflexivity |].
  split_and!; reflexivity.
Qed.

(** The cause, for every file: a start rewrites the entry of the started
    task and no other, so a task that was running stays so. *)
Lemma start_keeps_other_entries file taskId i task now j other :
  findById taskId file = Some (i, task) ->
  file !! j = Some other -> j <> i ->
  snd (post_tasks_start taskId now file) !! j = Some other.
Proof.
  intros Hf Hj Hne.
  destruct (start_found file taskId i task now Hf) as (started & -> & _).
  cbn [snd]. now rewrite list_lookup_insert_ne.
Qed.

(** ** The single timer, apart from start *)

Lemma running_cons task file :
  length (running (task :: file))
  = ((if inProgress task then 1 else 0) + length (running file))%nat.
Proof.
  unfold running. rewrite filter_cons.
  destruct (inProgress task); case_decide; try congruence; reflexivity.
Qed.

(** Replacing one entry changes the number of running tasks by that entry
    alone. *)
Lemma running_insert file i task task' :
  file !! i = Some task ->
  (length (running (<[i := task']> file))
   + (if inProgress task then 1 else 0))%nat
  = (length (running file) + (if inProgress task' then 1 else 0))%nat.
Proof.
  revert i. induction file as [| head file IH]; intros i Hi; [discriminate |].
  destruct i as [| i]; cbn in Hi.
  - injection Hi as ->.
    change (<[0%nat := task']> (task :: file)) with (task' :: file).
    rewrite !running_cons. lia.
  - change (<[S i := task']> (head :: file))
      with (head :: <[i := task']> file).
    rewrite !running_cons. specialize (IH i Hi). lia.
Qed.

Ltac count_running H :=
  repeat match type of H with
         | context [if ?b then _ else _] => destruct b
         end;
  lia.

Lemma running_app_idle file task :
  inProgress task = false -> running (file ++ [task]) = running file.
Proof.
  intros Hidle. unfold running. rewrite filter_app, filter_cons.
  case_decide; [congruence |]. now rewrite filter_nil, app_nil_r.
Qed.

Lemma running_saveTask_idle task file :
  inProgress task = false ->
  (length (running (saveTask task file)) <= length (running file))%nat.
Proof.
  intros Hidle. unfold saveTask, readTasks, writeTasks.
  destruct (findById (id task) file) as [[i old] |] eqn:Hf;
    cbn [fmap option_fmap option_map fst].
  - destruct (findById_Some _ _ _ _ Hf) as [Hi _].
    pose proof (running_insert file i old task Hi) as H.
    rewrite Hidle in H. count_running H.
  - now rewrite running_app_idle.
Qed.

Lemma running_deleteTask taskId file :
  (length (running (deleteTask taskId file)) <= length (running file))%nat.
Proof.
  unfold deleteTask, readTasks, writeTasks, running.
  induction file as [| task file IH]; [reflexivity |].
  rewrite !filter_cons.
  repeat case_decide; rewrite ?filter_cons; repeat case_decide;
    cbn [length]; try congruence; lia.
Qed.

(** Every request but a start leaves at most as many timers running as it
    found: the start handler is the one place where a second timer can
    appear. *)
Lemma other_requests_keep_running_count trim validURL req now file :
  (forall taskId, req <> StartTask taskId) ->
  (length (running (snd (handle trim validURL req now file)))
   <= length (running file))%nat.
Proof.
  intros Hnot. destruct req as [body | taskId | taskId | taskId rnd
                                | taskId | taskId]; cbn [handle].
  - unfold post_tasks.
    destruct (_ || _); [reflexivity |]. destruct (_ && _); [reflexivity |].
    match goal with
    | |- context [validateTask trim validURL ?t] =>
        destruct (validateTask trim validURL t); [reflexivity |];
        cbn [snd]
    end.
    destruct (truthy (b_id body)); [| now apply running_saveTask_idle].
    destruct (getTask (default "" (b_id body)) file) as [old |] eqn:Hget;
      [| now apply running_saveTask_idle].
    apply getTask_Some in Hget as [i Hf].
    destruct (findById_Some _ _ _ _ Hf) as [Hi Hid].
    erewrite saveTask_found by (cbn [id]; rewrite Hid; exact Hf).
    match goal with
    | |- context [<[i := ?t]> file] =>
        pose proof (running_insert file i old t Hi) as H
    end.
    cbn [inProgress] in H. count_running H.
  - now destruct (Hnot taskId).
  - destruct (findById taskId file) as [[i task] |] eqn:Hf.
    + destruct (stop_found file taskId i task now Hf)
        as (stopped & -> & _ & _ & Hidle & _).
      destruct (findById_Some _ _ _ _ Hf) as [Hi _].
      pose proof (running_insert file i task stopped Hi) as H.
      rewrite Hidle in H. cbn [snd]. count_running H.
    + apply getTask_None in Hf. unfold post_tasks_stop. now rewrite Hf.
  - destruct (findById taskId file) as [[i task] |] eqn:Hf.
    + destruct (complete_found file taskId i task now rnd Hf)
        as (done & _ & _ & _ & Hidle & _ & _ & _ & _ & Hsnd).
      destruct (findById_Some _ _ _ _ Hf) as [Hi _].
      pose proof (running_insert file i task done Hi) as H.
      rewrite Hidle in H.
      destruct (truthy (recurring task) && truthy (dueDate task)).
      * destruct Hsnd as (next & -> & _ & _ & _ & Hnext & _).
        rewrite running_app_idle by exact Hnext. count_running H.
      * rewrite Hsnd. count_running H.
    + unfold post_tasks_complete, readTasks. now rewrite Hf.
  - unfold post_tasks_restore.
    destruct (getTask taskId file) as [task |] eqn:Hget; [| reflexivity].
    apply getTask_Some in Hget as [i Hf].
    destruct (findById_Some _ _ _ _ Hf) as [Hi Hid]. cbn [snd].
    erewrite saveTask_found by (cbn [id set_updatedAt set_completed
                                     set_archived]; rewrite Hid; exact Hf).
    match goal with
    | |- context [<[i := ?t]> file] =>
        pose proof (running_insert file i task t Hi) as H
    end.
    cbn [inProgress set_updatedAt set_completed set_archived] in H.
    count_running H.
  - unfold delete_tasks.
    destruct (getTask taskId file); [| reflexivity].
    apply running_deleteTask.
Qed.

(** ** The streak counter *)

Lemma recordTaskCompletion_stored today g :
  stored (snd (recordTaskCompletion today g))
  = Some (streak (snd (recordTaskCompletion today g))).
Proof.
  unfold recordTaskCompletion. case_bool_decide; [| reflexivity].
  cbn [tasksCompletedToday currentStreak].
  now destruct ((tasksCompletedToday (streak g) + 1 =? 3)
                && (currentStreak (streak g) =? 0)).
Qed.

Lemma recordTaskCompletion_backed today g :
  streakBacked (streak g) ->
  streakBacked (streak (snd (recordTaskCompletion today g))).
Proof.
  unfold streakBacked, recordTaskCompletion. intros Hg.
  case_bool_decide; cbn [snd streak saveStreakData tasksCompletedToday
                          currentStreak].
  - destruct (Z.eqb_spec (tasksCompletedToday (streak g) + 1) 3) as [H3 | H3];
      destruct (Z.eqb_spec (currentStreak (streak g)) 0) as [H0 | H0];
      cbn [andb snd streak saveStreakData tasksCompletedToday currentStreak];
      lia.
  - destruct (Z.leb_spec 3 (tasksCompletedToday (streak g)));
      destruct (Z.ltb_spec 0 (currentStreak (streak g)));
      destruct (Z.eqb_spec (currentStreak (streak g)) 0);
      cbn [andb negb]; lia.
Qed.

Lemma loadStreakData_backed today item :
  (forall data, item = Some data -> streakBacked data) ->
  streakBacked (loadStreakData today item).
Proof.
  unfold streakBacked, loadStreakData. intros Hitem.
  destruct item as [data |]; [| cbn; lia].
  specialize (Hitem data eq_refl).
  case_bool_decide; [exact Hitem |].
  destruct (lastCompletedDate data) as [lastDate |]; [| cbn; lia].
  destruct (today - lastDate =? 1);
    cbn [currentStreak tasksCompletedToday]; lia.
Qed.

Lemma reachable_backed g :
  reachable g ->
  streakBacked (streak g)
  /\ forall data, stored g = Some data -> streakBacked data.
Proof.
  induction 1 as [today | g ev _ [IHmem IHsto]].
  - split; [| discriminate]. apply loadStreakData_backed. discriminate.
  - destruct ev as [today | today]; cbn [streakStep].
    + split; [| exact IHsto]. now apply loadStreakData_backed.
    + pose proof (recordTaskCompletion_backed today g IHmem) as Hb.
      split; [exact Hb |]. rewrite recordTaskCompletion_stored.
      now intros data [= <-].
Qed.

(** A completion counts one more task for its day. *)
Lemma countFor_recordTaskCompletion today g :
  countFor today (snd (recordTaskCompletion today g)) = countFor today g + 1.
Proof.
  unfold countFor, recordTaskCompletion.
  destruct (bool_decide (lastCompletedDate (streak g) = Some today)) eqn:Hd.
  - apply bool_decide_eq_true_1 in Hd.
    destruct ((tasksCompletedToday
                 {| currentStreak := currentStreak (streak g);
                    lastCompletedDate := lastCompletedDate (streak g);
                    tasksCompletedToday := tasksCompletedToday (streak g) + 1 |}
               =? 3) && _);
      cbn [snd streak saveStreakData lastCompletedDate tasksCompletedToday];
      now rewrite bool_decide_eq_true_2.
  - cbn [snd streak saveStreakData lastCompletedDate tasksCompletedToday].
    now rewrite bool_decide_eq_true_2.
Qed.

Lemma dayStreak_recordTaskCompletion today g :
  dayStreak today g -> dayStreak today (snd (recordTaskCompletion today g)).
Proof.
  intros [Hs Hprev]. unfold dayStreak.
  rewrite countFor_recordTaskCompletion.
  unfold countFor in *. unfold recordTaskCompletion.
  destruct (bool_decide (lastCompletedDate (streak g) = Some today)) eqn:Hd.
  - apply bool_decide_eq_true_1 in Hd. clear Hprev.
    cbn [tasksCompletedToday currentStreak].
    destruct (Z.eqb_spec (tasksCompletedToday (streak g) + 1) 3) as [H3 | H3];
      destruct (Z.eqb_spec (currentStreak (streak g)) 0) as [H0 | H0];
      cbn [andb snd streak saveStreakData tasksCompletedToday currentStreak
           lastCompletedDate];
      (split; [| congruence]);
      destruct (Z.ltb_spec (tasksCompletedToday (streak g)) 3);
      destruct (Z.ltb_spec (tasksCompletedToday (streak g) + 1) 3); lia.
  - apply bool_decide_eq_false_1 in Hd. specialize (Hprev Hd).
    cbn [snd streak saveStreakData tasksCompletedToday currentStreak
         lastCompletedDate].
    split; [| congruence].
    destruct (Z.leb_spec 3 (tasksCompletedToday (streak g))); [lia |].
    reflexivity.
Qed.

(** C5. From a reachable state whose streak is 0, [n] completions on one
    day count [n] more tasks for that day, and leave the streak at 0 while
    the day's count is below three and at exactly 1 from the third task
    on; and a completion on a day that already counts three tasks or more
    never changes the streak, whatever it is. *)
Theorem same_day_completions_streak :
  (forall g today n,
     reachable g -> currentStreak (streak g) = 0 ->
     countFor today (completions today n g) = countFor today g + Z.of_nat n
     /\ currentStreak (streak (completions today n g))
        = if countFor today g + Z.of_nat n <? 3 then 0 else 1)
  /\ (forall g today,
        lastCompletedDate (streak g) = Some today ->
        3 <= tasksCompletedToday (streak g) ->
        currentStreak (streak (snd (recordTaskCompletion today g)))
        = currentStreak (streak g)).
Proof.
  split.
  - intros g today n Hreach Hzero.
    assert (Hstart : dayStreak today g).
    { destruct (reachable_backed g Hreach) as [[_ Hb] _].
      unfold dayStreak, countFor in *. rewrite Hzero.
      split; [| lia].
      case_bool_decide; [| reflexivity].
      destruct (Z.ltb_spec (tasksCompletedToday (streak g)) 3); lia. }
    assert (Hrun : countFor today (completions today n g)
                   = countFor today g + Z.of_nat n
                   /\ dayStreak today (completions today n g)).
    { unfold completions. induction n as [| n [IHc IHd]].
      - split; [cbn; lia | exact Hstart].
      - rewrite Nat.iter_succ. split.
        + rewrite countFor_recordTaskCompletion, IHc. lia.
        + now apply dayStreak_recordTaskCompletion. }
    destruct Hrun as [Hcount [Hstreak _]]. split; [exact Hcount |].
    now rewrite Hstreak, Hcount.
  - intros g today Hlast Hthree. unfold recordTaskCompletion.
    rewrite bool_decide_eq_true_2 by exact Hlast.
    cbn [tasksCompletedToday currentStreak].
    destruct (Z.eqb_spec (tasksCompletedToday (streak g) + 1) 3); [lia |].
    reflexivity.
Qed.

Lemma same_day_completions_streak_witness :
  reachable (newGamification 20000 None)
  /\ currentStreak (streak (newGamification 20000 None)) = 0
  /\ (countFor 20000 (completions 20000 4 (newGamification 20000 None))
      = countFor 20000 (newGamification 20000 None) + Z.of_nat 4
      /\ currentStreak
           (streak (completions 20000 4 (newGamification 20000 None)))
         = if countFor 20000 (newGamification 20000 None) + Z.of_nat 4 <? 3
           then 0 else 1).
Proof.
  split; [constructor |]. split; [reflexivity |].
  apply (proj1 same_day_completions_streak (newGamification 20000 None)
           20000 4%nat); [constructor | reflexivity].
Defined.

(** The new-day branch of recordTaskCompletion, for a streak that is not
    negative: one more when the last day counted three tasks, 0 otherwise,
    and the day count starts at 1. How long ago the last day was plays no
    part. *)
Lemma new_day_completion today g :
  lastCompletedDate (streak g) <> Some today ->
  0 <= currentStreak (streak g) ->
  streak (snd (recordTaskCompletion today g))
  = {| currentStreak :=
         if 3 <=? tasksCompletedToday (streak g)
         then currentStreak (streak g) + 1 else 0;
       lastCompletedDate := Some today;
       tasksCompletedToday := 1 |}.
Proof.
  intros Hlast Hpos. unfold recordTaskCompletion.
  rewrite bool_decide_eq_false_2 by exact Hlast.
  cbn [snd streak saveStreakData]. f_equal.
  destruct (Z.leb_spec 3 (tasksCompletedToday (streak g))); cbn [andb negb].
  - destruct (Z.ltb_spec 0 (currentStreak (streak g))); [reflexivity |].
    destruct (Z.eqb_spec (currentStreak (streak g)) 0); lia.
  - reflexivity.
Qed.

(** A page load on the day after the last completion adds one to the
    stored streak without looking at the stored count: one task on day 100
    and a page load on day 101 give a streak of 1. *)
Lemma page_load_next_day_adds_one today data :
  lastCompletedDate data = Some (today - 1) ->
  loadStreakData today (Some data)
  = {| currentStreak := currentStreak data + 1;
       lastCompletedDate := Some today; tasksCompletedToday := 0 |}.
Proof.
  intros Hlast. unfold loadStreakData. rewrite Hlast.
  rewrite bool_decide_eq_false_2 by (intros [= H]; lia).
  now replace (today - (today - 1) =? 1) with true
    by (symmetry; apply Z.eqb_eq; lia).
Qed.

(** C4. Three tasks are completed on day 100, which starts a streak of 1;
    the page stays open and the next task is completed on day 103. The
    streak becomes 2: the two days without a completion do not reset it.
    A page load on day 103 would have reset it, as loadStreakData compares
    the days. *)
Theorem streak_extended_over_skipped_days :
  streak (completions 100 3 (newGamification 100 None))
    = {| currentStreak := 1; lastCompletedDate := Some 100;
         tasksCompletedToday := 3 |}
  /\ streak (snd (recordTaskCompletion 103
                    (completions 100 3 (newGamification 100 None))))
     = {| currentStreak := 2; lastCompletedDate := Some 103;
          tasksCompletedToday := 1 |}
  /\ streak (newGamification 103
               (stored (completions 100 3 (newGamification 100 None))))
     = {| currentStreak := 0; lastCompletedDate := Some 103;
          tasksCompletedToday := 0 |}.
Proof. split_and!; vm_compute; reflexivity. Qed.

(** ** The appointment reminder *)

Section ReminderFacts.

Variable dueDateTimeMs : string -> string -> option Z.
Variable dayOf : Z -> Z.










End ReminderFacts.


